(** * Contact book (main8.py): validated fields, records, address book
      and the upcoming-birthdays computation.

    The Python program is embedded shallowly.  Python [str] values are
    sequences of Unicode code points, exceptions are explicit results, the
    methods of [Record] pass the record state explicitly, and the
    [AddressBook] dictionary is an insertion-ordered association list, which
    is the order [dict.values()] iterates in. *)

From Stdlib Require Import ZArith NArith List String Ascii Bool Lia.
From Stdlib Require Import DecimalString.
From Stdlib Require Import Sorted Permutation.
Import ListNotations.

(* ================================================================= *)
(** ** Python strings *)

(** A Python string is a sequence of code points (0 .. 0x10FFFF). *)
Definition char := N.
Definition pystr := list char.

Definition ord (a : ascii) : char := N_of_ascii a.

(** [str "abc"] is the Python string with these ASCII characters. *)
Definition str (s : string) : pystr := map ord (list_ascii_of_string s).

Definition pystr_eq_dec : forall a b : pystr, {a = b} + {a <> b} :=
  list_eq_dec N.eq_dec.

Definition pystr_eqb (a b : pystr) : bool :=
  if pystr_eq_dec a b then true else false.

Definition in_range (c : char) (r : N * N) : bool :=
  (fst r <=? c)%N && (c <=? snd r)%N.

(** Code points with Unicode general category Nd (Unicode 14.0, the table of
    CPython 3.11): what [str.isdecimal] and the regular expression class
    [\d] accept.  Every range is a union of runs of ten that start at the
    digit zero. *)
Definition decimal_ranges : list (N * N) :=
  [ (48, 57); (1632, 1641); (1776, 1785); (1984, 1993); (2406, 2415);
    (2534, 2543); (2662, 2671); (2790, 2799); (2918, 2927); (3046, 3055);
    (3174, 3183); (3302, 3311); (3430, 3439); (3558, 3567); (3664, 3673);
    (3792, 3801); (3872, 3881); (4160, 4169); (4240, 4249); (6112, 6121);
    (6160, 6169); (6470, 6479); (6608, 6617); (6784, 6793); (6800, 6809);
    (6992, 7001); (7088, 7097); (7232, 7241); (7248, 7257); (42528, 42537);
    (43216, 43225); (43264, 43273); (43472, 43481); (43504, 43513);
    (43600, 43609); (44016, 44025); (65296, 65305); (66720, 66729);
    (68912, 68921); (69734, 69743); (69872, 69881); (69942, 69951);
    (70096, 70105); (70384, 70393); (70736, 70745); (70864, 70873);
    (71248, 71257); (71360, 71369); (71472, 71481); (71904, 71913);
    (72016, 72025); (72784, 72793); (73040, 73049); (73120, 73129);
    (92768, 92777); (92864, 92873); (93008, 93017); (120782, 120831);
    (123200, 123209); (123632, 123641); (125264, 125273);
    (130032, 130041) ]%N.

(** Code points whose Numeric_Type is Digit but not Decimal (superscripts,
    subscripts, circled digits, ...): accepted by [str.isdigit] only. *)
Definition other_digit_ranges : list (N * N) :=
  [ (178, 179); (185, 185); (4969, 4977); (6618, 6618); (8304, 8304);
    (8308, 8313); (8320, 8329); (9312, 9320); (9332, 9340); (9352, 9360);
    (9450, 9450); (9461, 9469); (9471, 9471); (10102, 10110);
    (10112, 10120); (10122, 10130); (68160, 68163); (69216, 69224);
    (69714, 69722); (127232, 127242) ]%N.

(** [c.isdecimal()] for a single character. *)
Definition isdecimal (c : char) : bool := existsb (in_range c) decimal_ranges.

(** [c.isdigit()] for a single character. *)
Definition isdigit (c : char) : bool :=
  isdecimal c || existsb (in_range c) other_digit_ranges.

(** [s.isdigit()]: every character is a digit and there is at least one. *)
Definition str_isdigit (s : pystr) : bool :=
  match s with
  | [] => false
  | _ => forallb isdigit s
  end.

(** The characters ['0'] .. ['9']. *)
Definition is_ascii_digit (c : char) : bool := (48 <=? c)%N && (c <=? 57)%N.

(** The decimal value of a character of category Nd, as [int] reads it. *)
Definition decimal_value (c : char) : Z :=
  match find (in_range c) decimal_ranges with
  | Some (lo, _) => Z.of_N ((c - lo) mod 10)
  | None => 0
  end.

(* ================================================================= *)
(** ** Exceptions and results *)

Inductive exn : Type :=
| ValueError (msg : string)
| KeyError (msg : string)
| OverflowError (msg : string).

Inductive result (A : Type) : Type :=
| Ok (a : A)
| Raise (e : exn).

Arguments Ok {A} a.
Arguments Raise {A} e.

Definition bind {A B} (m : result A) (f : A -> result B) : result B :=
  match m with
  | Ok a => f a
  | Raise e => Raise e
  end.

Notation "x <- m ;; k" := (bind m (fun x => k))
  (at level 61, m at next level, right associativity).

Definition is_ok {A} (m : result A) : bool :=
  match m with Ok _ => true | Raise _ => false end.

(* ================================================================= *)
(** ** datetime.date *)

Module Date.

Record t : Type := mk { year : Z; month : Z; day : Z }.

Definition MINYEAR : Z := 1.
Definition MAXYEAR : Z := 9999.

Definition is_leap (y : Z) : bool :=
  (y mod 4 =? 0)%Z && (negb (y mod 100 =? 0)%Z || (y mod 400 =? 0)%Z).

Definition days_in_month (y m : Z) : Z :=
  if (m =? 2)%Z then (if is_leap y then 29 else 28)
  else if ((m =? 4) || (m =? 6) || (m =? 9) || (m =? 11))%Z then 30
  else 31.

(** Number of days before January 1st of year [y]. *)
Definition days_before_year (y : Z) : Z :=
  let p := (y - 1)%Z in (p * 365 + p / 4 - p / 100 + p / 400)%Z.

(** Number of days in year [y] before the first day of month [m]. *)
Definition days_before_month (y m : Z) : Z :=
  (nth (Z.to_nat m) [0; 0; 31; 59; 90; 120; 151; 181; 212; 243; 273; 304; 334] 0
   + (if (2 <? m) && is_leap y then 1 else 0))%Z.

(** [d.toordinal()]: January 1st of year 1 is day 1. *)
Definition toordinal (d : t) : Z :=
  (days_before_year (year d) + days_before_month (year d) (month d) + day d)%Z.

(** [d.weekday()]: Monday is 0, Saturday 5, Sunday 6. *)
Definition weekday (d : t) : Z := ((toordinal d + 6) mod 7)%Z.

Definition valid (d : t) : bool :=
  ((MINYEAR <=? year d) && (year d <=? MAXYEAR)
   && (1 <=? month d) && (month d <=? 12)
   && (1 <=? day d) && (day d <=? days_in_month (year d) (month d)))%Z.

(** [date(y, m, d)]: the constructor checks its fields. *)
Definition make (y m d : Z) : result t :=
  if negb ((MINYEAR <=? y) && (y <=? MAXYEAR))%Z
  then Raise (ValueError ("year " ++ NilZero.string_of_int (Z.to_int y)
                          ++ " is out of range"))
  else if negb ((1 <=? m) && (m <=? 12))%Z
  then Raise (ValueError "month must be in 1..12")
  else if negb ((1 <=? d) && (d <=? days_in_month y m))%Z
  then Raise (ValueError "day is out of range for month")
  else Ok (mk y m d).

(** [d.replace(year=y)] builds a new date and so checks it again. *)
Definition replace_year (d : t) (y : Z) : result t := make y (month d) (day d).

(** Dates compare as the tuples (year, month, day). *)
Definition compare (a b : t) : comparison :=
  match (year a ?= year b)%Z with
  | Eq => match (month a ?= month b)%Z with
          | Eq => (day a ?= day b)%Z
          | c => c
          end
  | c => c
  end.

Definition ltb (a b : t) : bool :=
  match compare a b with Lt => true | _ => false end.

Definition leb (a b : t) : bool :=
  match compare a b with Gt => false | _ => true end.

Definition max : t := mk 9999 12 31.
Definition MAXORDINAL : Z := 3652059.

(** The day after [d]. *)
Definition next_day (d : t) : t :=
  if (day d <? days_in_month (year d) (month d))%Z
  then mk (year d) (month d) (day d + 1)
  else if (month d <? 12)%Z then mk (year d) (month d + 1) 1
  else mk (year d + 1) 1 1.

(** [d + timedelta(days=n)] for [n >= 0]: the date [n] days after [d],
    OverflowError when that is after [date.max]. *)
Definition add_days (d : t) (n : nat) : result t :=
  if (toordinal d + Z.of_nat n <=? MAXORDINAL)%Z
  then Ok (Nat.iter n next_day d)
  else Raise (OverflowError "date value out of range").

End Date.

(* ================================================================= *)
(** ** datetime.strptime(value, "%d.%m.%Y") *)

Module Strptime.

Definition dot : char := 46%N.
Definition space : char := 32%N.

Definition between (lo hi : N) (c : char) : bool := (lo <=? c)%N && (c <=? hi)%N.

(** One regular-expression step: the ways to match at the head of the
    input, in the order the backtracking matcher tries them, each with the
    matched text and the remaining input. *)
Definition matches : Type := list (pystr * pystr).

Definition two (p1 p2 : char -> bool) (s : pystr) : matches :=
  match s with
  | c1 :: c2 :: r => if p1 c1 && p2 c2 then [([c1; c2], r)] else []
  | _ => []
  end.

Definition one (p : char -> bool) (s : pystr) : matches :=
  match s with
  | c :: r => if p c then [([c], r)] else []
  | _ => []
  end.

(** [(?P<d>3[0-1]|[1-2]\d|0[1-9]|[1-9]| [1-9])] *)
Definition re_d (s : pystr) : matches :=
  two (N.eqb 51) (between 48 49) s
  ++ two (between 49 50) isdecimal s
  ++ two (N.eqb 48) (between 49 57) s
  ++ one (between 49 57) s
  ++ two (N.eqb space) (between 49 57) s.

(** [(?P<m>1[0-2]|0[1-9]|[1-9])] *)
Definition re_m (s : pystr) : matches :=
  two (N.eqb 49) (between 48 50) s
  ++ two (N.eqb 48) (between 49 57) s
  ++ one (between 49 57) s.

(** [(?P<Y>\d\d\d\d)] *)
Definition re_Y (s : pystr) : matches :=
  match s with
  | c1 :: c2 :: c3 :: c4 :: r =>
      if isdecimal c1 && isdecimal c2 && isdecimal c3 && isdecimal c4
      then [([c1; c2; c3; c4], r)] else []
  | _ => []
  end.

(** The literal [\.] *)
Definition re_dot (s : pystr) : list pystr :=
  match s with
  | c :: r => if (c =? dot)%N then [r] else []
  | [] => []
  end.

(** All the ways [d \. m \. Y] matches at the start of the input, in the
    order the matcher finds them, with the three groups and the unconsumed
    rest. *)
Definition all_matches (s : pystr) : list (pystr * pystr * pystr * pystr) :=
  flat_map (fun '(d, r1) =>
    flat_map (fun r2 =>
      flat_map (fun '(m, r3) =>
        flat_map (fun r4 =>
          map (fun '(y, r5) => (d, m, y, r5)) (re_Y r4))
          (re_dot r3))
        (re_m r2))
      (re_dot r1))
    (re_d s).

(** [format_regex.match(data_string)]: the first match. *)
Definition format_regex_match (s : pystr)
  : option (pystr * pystr * pystr * pystr) :=
  hd_error (all_matches s).

(** Whitespace that [int] strips. *)
Definition isspace (c : char) : bool :=
  existsb (in_range c)
    [ (9, 13); (32, 32); (133, 133); (160, 160); (5760, 5760);
      (8192, 8202); (8232, 8233); (8239, 8239); (8287, 8287);
      (12288, 12288) ]%N.

Fixpoint lstrip (s : pystr) : pystr :=
  match s with
  | c :: r => if isspace c then lstrip r else s
  | [] => []
  end.

Definition strip (s : pystr) : pystr := rev (lstrip (rev (lstrip s))).

(** [int(s)] on a string of decimal digits, surrounding whitespace
    ignored (signs and underscores, which the regular expression never
    hands over, are left out). *)
Definition int (s : pystr) : result Z :=
  let body := strip s in
  match body with
  | [] => Raise (ValueError "invalid literal for int() with base 10")
  | _ =>
      if forallb isdecimal body
      then Ok (fold_left (fun acc c => acc * 10 + decimal_value c)%Z body 0%Z)
      else Raise (ValueError "invalid literal for int() with base 10")
  end.

(** [datetime.strptime(s, "%d.%m.%Y").date()] *)
Definition strptime (s : pystr) : result Date.t :=
  match format_regex_match s with
  | None => Raise (ValueError "time data does not match format")
  | Some (d, m, y, rest) =>
      match rest with
      | _ :: _ => Raise (ValueError "unconverted data remains")
      | [] =>
          year <- int y ;;
          month <- int m ;;
          day <- int d ;;
          Date.make year month day
      end
  end.

End Strptime.

(* ================================================================= *)
(** ** Field validators *)

Module Phone.

(** A [Phone] object; [value] is the attribute set by [Field.__init__]. *)
Record t : Type := mk { value : pystr }.

(** [Phone.validate(value)] for [value] a [str]. *)
Definition validate (v : pystr) : bool :=
  str_isdigit v && (List.length v =? 10)%nat.

(** [Phone(value)] *)
Definition init (v : pystr) : result t :=
  if negb (validate v)
  then Raise (ValueError "Phone number must contain exactly 10 digits.")
  else Ok (mk v).

Definition eq_dec : forall a b : t, {a = b} + {a <> b}.
Proof. decide equality. apply pystr_eq_dec. Defined.

End Phone.

Module Birthday.

Record t : Type := mk { value : pystr }.

(** [Birthday(value)] for [value] a [str]: any exception of [strptime]
    is replaced by the constructor's own [ValueError]. *)
Definition init (v : pystr) : result t :=
  match Strptime.strptime v with
  | Ok _ => Ok (mk v)
  | Raise _ => Raise (ValueError "Invalid date format. Use DD.MM.YYYY")
  end.

End Birthday.

(* ================================================================= *)
(** ** Python lists *)

(** [l.index(x)]: the position of the first element equal to [x]. *)
Fixpoint list_index {A} (eq_dec : forall a b : A, {a = b} + {a <> b})
  (x : A) (l : list A) : result nat :=
  match l with
  | [] => Raise (ValueError "x is not in list")
  | y :: r =>
      if eq_dec y x then Ok O
      else (i <- list_index eq_dec x r ;; Ok (S i))
  end.

(** [l.remove(x)]: drops the first element equal to [x]. *)
Fixpoint list_remove {A} (eq_dec : forall a b : A, {a = b} + {a <> b})
  (x : A) (l : list A) : result (list A) :=
  match l with
  | [] => Raise (ValueError "list.remove(x): x not in list")
  | y :: r =>
      if eq_dec y x then Ok r
      else (r' <- list_remove eq_dec x r ;; Ok (y :: r'))
  end.

(** [l[i] = x] for [i] inside the list. *)
Fixpoint list_set {A} (i : nat) (x : A) (l : list A) : list A :=
  match l, i with
  | [], _ => []
  | _ :: r, O => x :: r
  | y :: r, S j => y :: list_set j x r
  end.

(* ================================================================= *)
(** ** Record *)

Module Record.

Record t : Type := mk {
  name : pystr;
  phones : list Phone.t;
  birthday : option Birthday.t
}.

(** A method call: the outcome together with the record afterwards. *)
Definition method (A : Type) : Type := t -> result A * t.

(** [Record(name)] *)
Definition init (n : pystr) : t := mk n [] None.

Definition set_phones (self : t) (ps : list Phone.t) : t :=
  mk (name self) ps (birthday self).

Definition find_phone (self : t) (number : pystr) : option Phone.t :=
  find (fun phone => pystr_eqb (Phone.value phone) number) (phones self).

Definition add_phone (phone_number : pystr) : method unit :=
  fun self =>
    match Phone.init phone_number with
    | Raise e => (Raise e, self)
    | Ok phone => (Ok tt, set_phones self (phones self ++ [phone]))
    end.

Definition remove_phone (phone_number : pystr) : method unit :=
  fun self =>
    match find_phone self phone_number with
    | Some phone =>
        match list_remove Phone.eq_dec phone (phones self) with
        | Raise e => (Raise e, self)
        | Ok ps => (Ok tt, set_phones self ps)
        end
    | None => (Raise (ValueError "Phone not found."), self)
    end.

Definition edit_phone (old new : pystr) : method unit :=
  fun self =>
    match find_phone self old with
    | None => (Raise (ValueError "Old phone not found."), self)
    | Some phone =>
        match list_index Phone.eq_dec phone (phones self) with
        | Raise e => (Raise e, self)
        | Ok idx =>
            match Phone.init new with
            | Raise e => (Raise e, self)
            | Ok p => (Ok tt, set_phones self (list_set idx p (phones self)))
            end
        end
    end.

Definition add_birthday (birthday_str : pystr) : method unit :=
  fun self =>
    match Birthday.init birthday_str with
    | Raise e => (Raise e, self)
    | Ok b => (Ok tt, mk (name self) (phones self) (Some b))
    end.

End Record.

(* ================================================================= *)
(** ** AddressBook *)

(** The entries of [get_upcoming_birthdays]:
    [{"name": ..., "birthday": greeting}]. *)
Record entry : Type := mk_entry { e_name : pystr; e_birthday : Date.t }.

(** [sorted(l, key=lambda x: x["birthday"])]: a stable sort that compares
    keys with [<]. *)
Fixpoint insert_sorted (x : entry) (l : list entry) : list entry :=
  match l with
  | [] => [x]
  | y :: r =>
      if Date.ltb (e_birthday y) (e_birthday x) then y :: insert_sorted x r
      else x :: l
  end.

Definition sorted (l : list entry) : list entry :=
  fold_right insert_sorted [] l.

Module AddressBook.

(** [self.data]: the keys in insertion order, each with its record. *)
Definition t : Type := list (pystr * Record.t).

Definition empty : t := [].

(** [self.data[k] = r]: a present key keeps its place. *)
Fixpoint dict_set (k : pystr) (r : Record.t) (d : t) : t :=
  match d with
  | [] => [(k, r)]
  | (k', r') :: rest =>
      if pystr_eq_dec k' k then (k', r) :: rest
      else (k', r') :: dict_set k r rest
  end.

Fixpoint dict_get (k : pystr) (d : t) : option Record.t :=
  match d with
  | [] => None
  | (k', r') :: rest => if pystr_eq_dec k' k then Some r' else dict_get k rest
  end.

Fixpoint dict_del (k : pystr) (d : t) : t :=
  match d with
  | [] => []
  | (k', r') :: rest =>
      if pystr_eq_dec k' k then rest else (k', r') :: dict_del k rest
  end.

Definition values (d : t) : list Record.t := map snd d.

Definition add_record (record : Record.t) (self : t) : t :=
  dict_set (Record.name record) record self.

Definition find (n : pystr) (self : t) : option Record.t := dict_get n self.

Definition delete (n : pystr) (self : t) : result unit * t :=
  match dict_get n self with
  | Some _ => (Ok tt, dict_del n self)
  | None => (Raise (KeyError "Not found."), self)
  end.

(** The year-anchoring of lines 128-131: this year, or next year when
    this year's date is before today. *)
Definition anchor (today bday_date : Date.t) : result Date.t :=
  bday <- Date.replace_year bday_date (Date.year today) ;;
  if Date.ltb bday today
  then Date.replace_year bday_date (Date.year today + 1)
  else Ok bday.

(** The weekend shift of lines 134-138. *)
Definition greeting_of (bday : Date.t) : result Date.t :=
  if (Date.weekday bday =? 5)%Z then Date.add_days bday 2
  else if (Date.weekday bday =? 6)%Z then Date.add_days bday 1
  else Ok bday.

(** One turn of the loop body for [rec]: the entry it appends, if any. *)
Definition visit (today limit : Date.t) (rec : Record.t)
  : result (option entry) :=
  match Record.birthday rec with
  | None => Ok None
  | Some b =>
      match Strptime.strptime (Birthday.value b) with
      | Raise _ => Ok None
      | Ok bday_date =>
          bday <- anchor today bday_date ;;
          if Date.leb today bday && Date.leb bday limit
          then (greeting <- greeting_of bday ;;
                Ok (Some (mk_entry (Record.name rec) greeting)))
          else Ok None
      end
  end.

(** The [for] loop over [self.data.values()], [acc] being [result]. *)
Fixpoint loop (today limit : Date.t) (recs : list Record.t)
  (acc : list entry) : result (list entry) :=
  match recs with
  | [] => Ok acc
  | rec :: rest =>
      o <- visit today limit rec ;;
      match o with
      | Some e => loop today limit rest (acc ++ [e])
      | None => loop today limit rest acc
      end
  end.

(** [get_upcoming_birthdays], with [date.today()] as argument. *)
Definition get_upcoming_birthdays (today : Date.t) (self : t)
  : result (list entry) :=
  limit <- Date.add_days today 6 ;;
  res <- loop today limit (values self) [] ;;
  Ok (sorted res).

End AddressBook.

(* ================================================================= *)
(** ** Command handlers *)

(** [sep.join(l)] *)
Fixpoint join (sep : pystr) (l : list pystr) : pystr :=
  match l with
  | [] => []
  | [x] => x
  | x :: r => x ++ sep ++ join sep r
  end.

(** [sub in s] for two strings. *)
Fixpoint contains (sub s : string) : bool :=
  String.prefix sub s
  || match s with
     | EmptyString => false
     | String _ r => contains sub r
     end.

Module Commands.

(** What the body of a handler raises: an exception of the core, the
    IndexError of [args[i]] on a short argument list, or the AttributeError
    of an attribute access on [None]. *)
Inductive raised : Type :=
| Core (e : exn)
| IndexError
| AttributeError.

Inductive outcome (A : Type) : Type :=
| Return (a : A)
| Throw (e : raised).

Arguments Return {A} a.
Arguments Throw {A} e.

(** The end of a body that called a method of the core: its message on
    success, the method's exception otherwise. *)
Definition finish (res : result unit) (msg : string) : outcome pystr :=
  match res with
  | Ok _ => Return (str msg)
  | Raise e => Throw (Core e)
  end.

(** The decorator [input_error]: what [inner] returns for the outcome of
    the wrapped function. *)
Definition input_error (o : outcome pystr) : pystr :=
  match o with
  | Return s => s
  | Throw (Core (ValueError msg)) =>
      if contains "not enough values to unpack" msg
         || contains "too many values to unpack" msg
      then str "Not enough or too many arguments provided for this command."
      else str ("Invalid value: " ++ msg)
  | Throw IndexError => str "Not enough arguments provided for the command."
  | Throw (Core (KeyError _)) => str "Contact not found."
  | Throw AttributeError => str "Contact not found."
  | Throw (Core (OverflowError msg)) =>
      str ("An unexpected error occurred: " ++ msg)
  end.

(** A decorated handler: the message it returns and the book afterwards. *)
Definition decorated (body : list pystr -> AddressBook.t -> outcome pystr * AddressBook.t)
  (args : list pystr) (book : AddressBook.t) : pystr * AddressBook.t :=
  let (o, book') := body args book in (input_error o, book').

(** The record a handler works on is the object the book holds under
    [name]; a method call on it changes it in the book, which the model
    does by storing the record's new state under [name] again. *)
Definition add_contact_body (args : list pystr) (book : AddressBook.t)
  : outcome pystr * AddressBook.t :=
  match args with
  | name :: phone :: _ =>
      let '(record, book1, msg) :=
        match AddressBook.find name book with
        | None =>
            (Record.init name,
             AddressBook.add_record (Record.init name) book,
             "Contact added."%string)
        | Some record => (record, book, "Contact updated."%string)
        end in
      let (res, record') := Record.add_phone phone record in
      (finish res msg, AddressBook.dict_set name record' book1)
  | _ => (Throw IndexError, book)
  end.

Definition add_contact := decorated add_contact_body.

Definition change_contact_body (args : list pystr) (book : AddressBook.t)
  : outcome pystr * AddressBook.t :=
  match args with
  | name :: old :: new :: _ =>
      match AddressBook.find name book with
      | None => (Throw AttributeError, book)
      | Some record =>
          let (res, record') := Record.edit_phone old new record in
          (finish res "Phone updated.", AddressBook.dict_set name record' book)
      end
  | _ => (Throw IndexError, book)
  end.

Definition change_contact := decorated change_contact_body.

Definition show_phone_body (args : list pystr) (book : AddressBook.t)
  : outcome pystr * AddressBook.t :=
  match args with
  | name :: _ =>
      match AddressBook.find name book with
      | None => (Throw AttributeError, book)
      | Some record =>
          match Record.phones record with
          | [] => (Return (str "No phones."), book)
          | ps => (Return (join (str ", ") (map Phone.value ps)), book)
          end
      end
  | _ => (Throw IndexError, book)
  end.

Definition show_phone := decorated show_phone_body.

Definition add_birthday_body (args : list pystr) (book : AddressBook.t)
  : outcome pystr * AddressBook.t :=
  match args with
  | name :: bday :: _ =>
      let (record, book1) :=
        match AddressBook.find name book with
        | None =>
            (Record.init name, AddressBook.add_record (Record.init name) book)
        | Some record => (record, book)
        end in
      let (res, record') := Record.add_birthday bday record in
      (finish res "Birthday added.", AddressBook.dict_set name record' book1)
  | _ => (Throw IndexError, book)
  end.

Definition add_birthday := decorated add_birthday_body.

Definition show_birthday_body (args : list pystr) (book : AddressBook.t)
  : outcome pystr * AddressBook.t :=
  match args with
  | name :: _ =>
      match AddressBook.find name book with
      | None => (Throw AttributeError, book)
      | Some record =>
          match Record.birthday record with
          | None => (Return (str "No birthday."), book)
          | Some b => (Return (Birthday.value b), book)
          end
      end
  | _ => (Throw IndexError, book)
  end.

Definition show_birthday := decorated show_birthday_body.

(** Two decimal digits, zero-padded: [%d] and [%m] of [strftime]. *)
Definition two_digits (n : Z) : pystr :=
  [Z.to_N (48 + n / 10); Z.to_N (48 + n mod 10)].

Fixpoint drop_zeros (ds : list Z) : list Z :=
  match ds with
  | 0%Z :: (_ :: _) as r => drop_zeros r
  | _ => ds
  end.

(** The year in decimal, as [%Y] of [strftime] writes it with glibc:
    without padding. *)
Definition year_digits (y : Z) : pystr :=
  map (fun d => Z.to_N (48 + d))
      (drop_zeros [y / 1000; (y / 100) mod 10; (y / 10) mod 10; y mod 10])%Z.

(** [d.strftime('%d.%m.%Y')] *)
Definition strftime (d : Date.t) : pystr :=
  two_digits (Date.day d) ++ Strptime.dot :: two_digits (Date.month d)
  ++ Strptime.dot :: year_digits (Date.year d).

(** One line of the [birthdays] command. *)
Definition birthday_line (item : entry) : pystr :=
  strftime (e_birthday item) ++ str ": " ++ e_name item.

(** [birthdays(args, book)], which is not decorated: an exception of
    [get_upcoming_birthdays] leaves it as it is. *)
Definition birthdays (today : Date.t) (args : list pystr) (book : AddressBook.t)
  : result pystr :=
  lst <- AddressBook.get_upcoming_birthdays today book ;;
  match lst with
  | [] => Ok (str "No birthdays in upcoming 7 days.")
  | _ => Ok (join [10%N] (map birthday_line lst))
  end.

End Commands.

(* ================================================================= *)
(** ** The specification's vocabulary *)

(** A string of exactly 10 decimal digit characters, ['0'] .. ['9']. *)
Definition ten_decimal_digits (v : pystr) : bool :=
  (List.length v =? 10)%nat && forallb is_ascii_digit v.

(** The number a group of the date text writes: its characters read as
    decimal digits, a padding space counting as zero. *)
Definition number (t : pystr) : Z :=
  fold_left (fun acc c => (acc * 10 + decimal_value c)%Z) t 0%Z.

(** The day texts of [%d]: one digit 1-9, alone or after a space or a zero,
    or 10 .. 31 (the second digit of 10 .. 29 being any decimal digit of
    Unicode). *)
Definition day_text (t : pystr) : bool :=
  match t with
  | [c] => Strptime.between 49 57 c
  | [c1; c2] =>
      ((51 =? c1)%N && Strptime.between 48 49 c2)
      || (Strptime.between 49 50 c1 && isdecimal c2)
      || ((48 =? c1)%N && Strptime.between 49 57 c2)
      || ((32 =? c1)%N && Strptime.between 49 57 c2)
  | _ => false
  end.

(** The month texts of [%m]: 1 .. 9, 01 .. 09, 10 .. 12. *)
Definition month_text (t : pystr) : bool :=
  match t with
  | [c] => Strptime.between 49 57 c
  | [c1; c2] =>
      ((49 =? c1)%N && Strptime.between 48 50 c2)
      || ((48 =? c1)%N && Strptime.between 49 57 c2)
  | _ => false
  end.

(** The year texts of [%Y]: four decimal digits. *)
Definition year_text (t : pystr) : bool :=
  match t with
  | [c1; c2; c3; c4] => isdecimal c1 && isdecimal c2 && isdecimal c3 && isdecimal c4
  | _ => false
  end.

(** [s] reads day [.] month [.] year in these texts and the three numbers
    are a date of the calendar, years 1 to 9999. *)
Definition lenient_date (s : pystr) : Prop :=
  exists ds ms ys,
    s = ds ++ Strptime.dot :: ms ++ Strptime.dot :: ys /\
    day_text ds = true /\ month_text ms = true /\ year_text ys = true /\
    Date.valid (Date.mk (number ys) (number ms) (number ds)) = true.

(** The format DD.MM.YYYY as the specification words it: two digits, a dot,
    two digits, a dot, four digits, the digits being ['0'] .. ['9']. *)
Definition dd_mm_yyyy (s : pystr) : bool :=
  match s with
  | [d1; d2; p1; m1; m2; p2; y1; y2; y3; y4] =>
      forallb is_ascii_digit [d1; d2; m1; m2; y1; y2; y3; y4]
      && (p1 =? Strptime.dot)%N && (p2 =? Strptime.dot)%N
  | _ => false
  end.

(** The date such a string denotes. *)
Definition denoted_date (s : pystr) : Date.t :=
  match s with
  | [d1; d2; _; m1; m2; _; y1; y2; y3; y4] =>
      Date.mk (number [y1; y2; y3; y4]) (number [m1; m2]) (number [d1; d2])
  | _ => Date.mk 0 0 0
  end.

(** A string in the format DD.MM.YYYY that denotes a real calendar date. *)
Definition strict_date (s : pystr) : bool :=
  dd_mm_yyyy s && Date.valid (denoted_date s).

(** The records a program can build: [Record(name)] followed by any calls
    of its methods, whatever their outcome. *)
Inductive reachable : Record.t -> Prop :=
| reach_init (n : pystr) : reachable (Record.init n)
| reach_add_phone (r : Record.t) (number : pystr) :
    reachable r -> reachable (snd (Record.add_phone number r))
| reach_remove_phone (r : Record.t) (number : pystr) :
    reachable r -> reachable (snd (Record.remove_phone number r))
| reach_edit_phone (r : Record.t) (old new : pystr) :
    reachable r -> reachable (snd (Record.edit_phone old new r))
| reach_add_birthday (r : Record.t) (s : pystr) :
    reachable r -> reachable (snd (Record.add_birthday s r)).

(** Every phone of the record passes [Phone.validate]. *)
Definition phones_valid (r : Record.t) : Prop :=
  Forall (fun p => Phone.validate (Phone.value p) = true) (Record.phones r).

(** The birthday [bday_date] anchored as the specification words it: to the
    current year, or to the next year when that date is before today. *)
Definition anchored (today bday_date : Date.t) : Date.t :=
  let this_year :=
    Date.mk (Date.year today) (Date.month bday_date) (Date.day bday_date) in
  if Date.ltb this_year today
  then Date.mk (Date.year today + 1) (Date.month bday_date) (Date.day bday_date)
  else this_year.

(** [d] lies in the inclusive window of [n] days that starts today. *)
Definition within_days (today : Date.t) (n : Z) (d : Date.t) : Prop :=
  (Date.toordinal today <= Date.toordinal d <= Date.toordinal today + n)%Z.

(** The weekend shift in days: Saturday 2, Sunday 1, otherwise 0. *)
Definition weekend_shift (d : Date.t) : Z :=
  if (Date.weekday d =? 5)%Z then 2%Z
  else if (Date.weekday d =? 6)%Z then 1%Z else 0%Z.

(** The dictionary invariant of an [AddressBook] filled by [add_record]:
    keys are distinct and every record is stored under its own name. *)
Definition book_wf (book : AddressBook.t) : Prop :=
  NoDup (map fst book) /\
  forall k r, In (k, r) book -> Record.name r = k.

(** No stored birthday is a 29th of February. *)
Definition no_leap_day (book : AddressBook.t) : Prop :=
  forall rec b bd,
    In rec (AddressBook.values book) ->
    Record.birthday rec = Some b ->
    Strptime.strptime (Birthday.value b) = Ok bd ->
    ~ (Date.month bd = 2%Z /\ Date.day bd = 29%Z).

(** Ascending order of greeting dates. *)
Definition entry_le (x y : entry) : Prop :=
  Date.leb (e_birthday x) (e_birthday y) = true.

(** The entries of the records in the order the loop visits them, before
    sorting. *)
Definition entries_in_order (today limit : Date.t) (recs : list Record.t)
  : list entry :=
  flat_map (fun rec =>
              match AddressBook.visit today limit rec with
              | Ok (Some e) => [e]
              | _ => []
              end) recs.

(** The entry's greeting date is [d]. *)
Definition on_date (d : Date.t) (e : entry) : bool :=
  match Date.compare (e_birthday e) d with Eq => true | _ => false end.

(** The record has a birthday. *)
Definition has_birthday (rec : Record.t) : bool :=
  match Record.birthday rec with Some _ => true | None => false end.

(** The record a handler works on: the one the book holds under [name],
    or a new one. *)
Definition found_or_new (name : pystr) (book : AddressBook.t) : Record.t :=
  match AddressBook.find name book with
  | Some record => record
  | None => Record.init name
  end.

(** Sample contacts: Alice, born 10.06.1990; Bob, born 15.06.1990; Leap,
    born 29.02.2000. *)
Definition alice : Record.t :=
  Record.mk (str "Alice") [] (Some (Birthday.mk (str "10.06.1990"))).

Definition bob : Record.t :=
  Record.mk (str "Bob") [] (Some (Birthday.mk (str "15.06.1990"))).

Definition leap : Record.t :=
  Record.mk (str "Leap") [] (Some (Birthday.mk (str "29.02.2000"))).

Definition sample_book : AddressBook.t :=
  AddressBook.add_record bob (AddressBook.add_record alice AddressBook.empty).

(** Alice again, born 03.03.1990, and a book with her and Leap, both stored
    by [add_record]. *)
Definition alice_march : Record.t :=
  Record.mk (str "Alice") [] (Some (Birthday.mk (str "03.03.1990"))).

Definition leap_book : AddressBook.t :=
  AddressBook.add_record leap
    (AddressBook.add_record alice_march AddressBook.empty).

(* ================================================================= *)
(** * Phone *)

Lemma is_ascii_digit_isdigit (c : char) :
  is_ascii_digit c = true -> isdigit c = true.
Proof.
  unfold is_ascii_digit, isdigit, isdecimal. intros H.
  apply andb_true_iff in H. destruct H as [H1 H2].
  apply orb_true_iff. left.
  cbn [existsb decimal_ranges]. unfold in_range at 1. cbn [fst snd].
  rewrite H1, H2. reflexivity.
Qed.

Lemma validate_iff (v : pystr) :
  Phone.validate v = true <->
  List.length v = 10%nat /\ (forall c, In c v -> isdigit c = true).
Proof.
  unfold Phone.validate. rewrite andb_true_iff, Nat.eqb_eq. split.
  - intros [Hd Hl]. split; [exact Hl|].
    destruct v as [|c v]; [discriminate|].
    unfold str_isdigit in Hd. rewrite forallb_forall in Hd. exact Hd.
  - intros [Hl Hd]. split; [|exact Hl].
    destruct v as [|c v]; [discriminate|].
    unfold str_isdigit. apply forallb_forall. exact Hd.
Qed.

Lemma ten_decimal_digits_validate (v : pystr) :
  ten_decimal_digits v = true -> Phone.validate v = true.
Proof.
  unfold ten_decimal_digits. rewrite andb_true_iff, Nat.eqb_eq.
  intros [Hl Hd]. apply validate_iff. split; [exact Hl|].
  intros c Hc. apply is_ascii_digit_isdigit.
  rewrite forallb_forall in Hd. auto.
Qed.

Lemma init_ok_validate (v : pystr) (p : Phone.t) :
  Phone.init v = Ok p -> p = Phone.mk v /\ Phone.validate v = true.
Proof.
  unfold Phone.init. destruct (Phone.validate v); cbn; intros H.
  - injection H as <-. auto.
  - discriminate.
Qed.

(** C4, as the specification states it, fails: ten superscript twos
    (U+00B2) are no decimal digits, yet [str.isdigit] accepts them and the
    constructor succeeds. *)
Lemma C4_phone_counterexample :
  let v := repeat 178%N 10 in
  ten_decimal_digits v = false /\
  forallb isdecimal v = false /\
  Phone.init v = Ok (Phone.mk v).
Proof. vm_compute. repeat split. Qed.

(** C4, amended: [Phone(v)] succeeds exactly when [v] has 10 characters
    that all satisfy [str.isdigit] (the Unicode digit property, which holds
    of ['0'] .. ['9'] and of other digit characters as well), and raises the
    constructor's ValueError for every other string; in particular every
    string of 10 characters ['0'] .. ['9'] is accepted. *)
Theorem C4_phone_init (v : pystr) :
  (Phone.init v = Ok (Phone.mk v) <->
   List.length v = 10%nat /\ (forall c, In c v -> isdigit c = true)) /\
  (Phone.init v = Raise (ValueError "Phone number must contain exactly 10 digits.") <->
   ~ (List.length v = 10%nat /\ (forall c, In c v -> isdigit c = true))) /\
  (ten_decimal_digits v = true -> Phone.init v = Ok (Phone.mk v)).
Proof.
  pose proof (validate_iff v) as Hv.
  pose proof (ten_decimal_digits_validate v) as Ht.
  unfold Phone.init.
  destruct (Phone.validate v); cbn.
  - split; [|split].
    + split; [intros _; apply Hv; reflexivity | reflexivity].
    + split; [discriminate|]. intros H. exfalso. apply H, Hv. reflexivity.
    + reflexivity.
  - split; [|split].
    + split; [discriminate|]. intros H. apply Hv in H. discriminate.
    + split; [|reflexivity]. intros _ H. apply Hv in H. discriminate.
    + intros H. apply Ht in H. discriminate.
Qed.

Lemma C4_phone_init_witness :
  ten_decimal_digits (str "0501234567") = true /\
  Phone.init (str "0501234567") = Ok (Phone.mk (str "0501234567")).
Proof.
  split; [reflexivity|].
  apply (C4_phone_init (str "0501234567")). reflexivity.
Defined.

(* ================================================================= *)
(** * Record *)

Lemma find_phone_none (self : Record.t) (number : pystr) :
  (forall p, In p (Record.phones self) -> Phone.value p <> number) ->
  Record.find_phone self number = None.
Proof.
  unfold Record.find_phone. intros H.
  induction (Record.phones self) as [|p ps IH]; [reflexivity|].
  cbn. unfold pystr_eqb at 1.
  destruct (pystr_eq_dec (Phone.value p) number) as [E|E].
  - exfalso. apply (H p); [left; reflexivity | exact E].
  - apply IH. intros q Hq. apply H. right. exact Hq.
Qed.

(** C6: when no stored phone has the value [old], [edit_phone(old, new)]
    raises the not-found ValueError ("Old phone not found.") and the record,
    so also its phone list, is the same afterwards. *)
Theorem C6_edit_phone_absent (self : Record.t) (old new : pystr) :
  (forall p, In p (Record.phones self) -> Phone.value p <> old) ->
  Record.edit_phone old new self
  = (Raise (ValueError "Old phone not found."), self).
Proof.
  intros H. unfold Record.edit_phone.
  rewrite (find_phone_none self old H). reflexivity.
Qed.

Lemma C6_edit_phone_absent_witness :
  let self := snd (Record.add_phone (str "0501234567") (Record.init (str "Ann"))) in
  Record.phones self = [Phone.mk (str "0501234567")] /\
  Record.edit_phone (str "0999999999") (str "0111111111") self
  = (Raise (ValueError "Old phone not found."), self).
Proof.
  split; [reflexivity|].
  apply (C6_edit_phone_absent
           (snd (Record.add_phone (str "0501234567") (Record.init (str "Ann"))))
           (str "0999999999") (str "0111111111")).
  intros p [<- | []]. vm_compute. discriminate.
Defined.

Lemma list_remove_Forall {A} (P : A -> Prop) eq_dec (x : A) (l l' : list A) :
  list_remove eq_dec x l = Ok l' -> Forall P l -> Forall P l'.
Proof.
  revert l'. induction l as [|y r IH]; cbn; intros l' H HF; [discriminate|].
  inversion HF as [|? ? Hy Hr]; subst.
  destruct (eq_dec y x).
  - injection H as <-. exact Hr.
  - destruct (list_remove eq_dec x r) as [r'|e]; cbn in H; [|discriminate].
    injection H as <-. constructor; [exact Hy | apply IH; auto].
Qed.

Lemma list_set_Forall {A} (P : A -> Prop) (i : nat) (x : A) (l : list A) :
  P x -> Forall P l -> Forall P (list_set i x l).
Proof.
  intros Hx. revert i. induction l as [|y r IH]; intros i HF.
  - destruct i; constructor.
  - inversion HF; subst. destruct i; cbn; constructor; auto.
Qed.

Lemma add_phone_valid (number : pystr) (r : Record.t) :
  phones_valid r -> phones_valid (snd (Record.add_phone number r)).
Proof.
  unfold phones_valid, Record.add_phone. intros H.
  destruct (Phone.init number) as [p|e] eqn:E; cbn; [|exact H].
  apply init_ok_validate in E. destruct E as [-> Hv].
  apply Forall_app. split; [exact H|]. constructor; [exact Hv | constructor].
Qed.

Lemma remove_phone_valid (number : pystr) (r : Record.t) :
  phones_valid r -> phones_valid (snd (Record.remove_phone number r)).
Proof.
  unfold phones_valid, Record.remove_phone. intros H.
  destruct (Record.find_phone r number) as [p|]; cbn; [|exact H].
  destruct (list_remove Phone.eq_dec p (Record.phones r)) as [ps|e] eqn:E;
    cbn; [|exact H].
  eapply list_remove_Forall; eassumption.
Qed.

Lemma edit_phone_valid (old new : pystr) (r : Record.t) :
  phones_valid r -> phones_valid (snd (Record.edit_phone old new r)).
Proof.
  unfold phones_valid, Record.edit_phone. intros H.
  destruct (Record.find_phone r old) as [p|]; cbn; [|exact H].
  destruct (list_index Phone.eq_dec p (Record.phones r)) as [i|e];
    cbn; [|exact H].
  destruct (Phone.init new) as [q|e] eqn:E; cbn; [|exact H].
  apply init_ok_validate in E. destruct E as [-> Hv].
  apply list_set_Forall; assumption.
Qed.

Lemma add_birthday_valid (s : pystr) (r : Record.t) :
  phones_valid r -> phones_valid (snd (Record.add_birthday s r)).
Proof.
  unfold phones_valid, Record.add_birthday. intros H.
  destruct (Birthday.init s); cbn; exact H.
Qed.

(** C8, as the specification states it, fails: [add_phone] stores a phone
    of ten superscript twos, which is no string of decimal digits. *)
Lemma C8_phones_counterexample :
  let r := snd (Record.add_phone (repeat 178%N 10) (Record.init (str "Ann"))) in
  reachable r /\
  exists p, In p (Record.phones r) /\
            ten_decimal_digits (Phone.value p) = false /\
            forallb isdecimal (Phone.value p) = false.
Proof.
  split.
  - apply reach_add_phone, reach_init.
  - exists (Phone.mk (repeat 178%N 10)). vm_compute. auto.
Qed.

(** C8, amended: every phone in the phone list of a record built by
    [Record(name)] and any sequence of [add_phone], [remove_phone],
    [edit_phone] and [add_birthday] calls passes [Phone.validate]: it has
    exactly 10 characters, each with the Unicode digit property of
    [str.isdigit]. *)
Theorem C8_phones_invariant (r : Record.t) :
  reachable r ->
  forall p, In p (Record.phones r) ->
    List.length (Phone.value p) = 10%nat /\
    (forall c, In c (Phone.value p) -> isdigit c = true).
Proof.
  intros Hr.
  assert (Hv : phones_valid r).
  { induction Hr.
    - constructor.
    - apply add_phone_valid; assumption.
    - apply remove_phone_valid; assumption.
    - apply edit_phone_valid; assumption.
    - apply add_birthday_valid; assumption. }
  intros p Hp. apply validate_iff.
  unfold phones_valid in Hv. rewrite Forall_forall in Hv. auto.
Qed.

Lemma C8_phones_invariant_witness :
  let r := snd (Record.edit_phone (str "0501234567") (str "0670000000")
             (snd (Record.add_phone (str "0501234567") (Record.init (str "Ann"))))) in
  Record.phones r = [Phone.mk (str "0670000000")] /\
  forall p, In p (Record.phones r) ->
    List.length (Phone.value p) = 10%nat /\
    (forall c, In c (Phone.value p) -> isdigit c = true).
Proof.
  split; [reflexivity|].
  apply (C8_phones_invariant
           (snd (Record.edit_phone (str "0501234567") (str "0670000000")
             (snd (Record.add_phone (str "0501234567") (Record.init (str "Ann"))))))).
  apply reach_edit_phone, reach_add_phone, reach_init.
Defined.

(* ================================================================= *)
(** * AddressBook: add_record *)

Lemma dict_get_set_same (k : pystr) (r : Record.t) (d : AddressBook.t) :
  AddressBook.dict_get k (AddressBook.dict_set k r d) = Some r.
Proof.
  induction d as [|[k' r'] rest IH]; cbn.
  - destruct (pystr_eq_dec k k); [reflexivity | congruence].
  - destruct (pystr_eq_dec k' k) as [E|E]; cbn.
    + destruct (pystr_eq_dec k' k); [reflexivity | congruence].
    + destruct (pystr_eq_dec k' k); [congruence | exact IH].
Qed.

Lemma dict_get_set_other (k k0 : pystr) (r : Record.t) (d : AddressBook.t) :
  k0 <> k ->
  AddressBook.dict_get k0 (AddressBook.dict_set k r d) = AddressBook.dict_get k0 d.
Proof.
  intros Hne. induction d as [|[k' r'] rest IH]; cbn.
  - destruct (pystr_eq_dec k k0); [congruence | reflexivity].
  - destruct (pystr_eq_dec k' k) as [E|E]; cbn.
    + destruct (pystr_eq_dec k' k0); [congruence | reflexivity].
    + destruct (pystr_eq_dec k' k0); [reflexivity | exact IH].
Qed.

Lemma dict_set_set (k : pystr) (r1 r2 : Record.t) (d : AddressBook.t) :
  AddressBook.dict_set k r2 (AddressBook.dict_set k r1 d)
  = AddressBook.dict_set k r2 d.
Proof.
  induction d as [|[k' r'] rest IH]; cbn.
  - destruct (pystr_eq_dec k k); [reflexivity | congruence].
  - destruct (pystr_eq_dec k' k) as [E|E]; cbn.
    + destruct (pystr_eq_dec k' k); [reflexivity | congruence].
    + destruct (pystr_eq_dec k' k); [congruence | rewrite IH; reflexivity].
Qed.

(** C7: [add_record] stores the record under its name, and a second
    [add_record] with a record of the same name replaces the first one
    entirely: the name then maps to exactly the second record (so its phone
    list is the second record's own), the book is the one obtained by adding
    the second record alone, and other names are untouched. *)
Theorem C7_add_record_overwrites (book : AddressBook.t) (r1 r2 : Record.t) :
  Record.name r1 = Record.name r2 ->
  let book1 := AddressBook.add_record r1 book in
  let book2 := AddressBook.add_record r2 book1 in
  AddressBook.find (Record.name r1) book1 = Some r1 /\
  AddressBook.find (Record.name r2) book2 = Some r2 /\
  book2 = AddressBook.add_record r2 book /\
  (forall n, n <> Record.name r2 ->
     AddressBook.find n book2 = AddressBook.find n book).
Proof.
  intros E. cbn zeta. unfold AddressBook.add_record, AddressBook.find.
  rewrite E. repeat split.
  - apply dict_get_set_same.
  - apply dict_get_set_same.
  - apply dict_set_set.
  - intros n Hn. rewrite !dict_get_set_other by exact Hn. reflexivity.
Qed.

Lemma C7_add_record_overwrites_witness :
  let r1 := snd (Record.add_phone (str "0501234567") (Record.init (str "Ann"))) in
  let r2 := snd (Record.add_phone (str "0670000000") (Record.init (str "Ann"))) in
  AddressBook.find (str "Ann")
    (AddressBook.add_record r2 (AddressBook.add_record r1 AddressBook.empty))
  = Some r2 /\
  Record.phones r2 = [Phone.mk (str "0670000000")].
Proof.
  split; [|reflexivity].
  apply (C7_add_record_overwrites AddressBook.empty
           (snd (Record.add_phone (str "0501234567") (Record.init (str "Ann"))))
           (snd (Record.add_phone (str "0670000000") (Record.init (str "Ann"))))).
  reflexivity.
Defined.

(* ================================================================= *)
(** * Calendar facts *)

Section DateFacts.
Import Date.
Local Open Scope Z_scope.

Lemma leb_iff a b : leb a b = true <->
  year a < year b \/ (year a = year b /\ (month a < month b \/ (month a = month b /\ day a <= day b))).
Proof.
  unfold leb, compare.
  destruct (Z.compare_spec (year a) (year b)); destruct (Z.compare_spec (month a) (month b));
  destruct (Z.compare_spec (day a) (day b)); split; intros; try lia; try discriminate; try reflexivity.
Qed.

Lemma ltb_iff a b : ltb a b = true <->
  year a < year b \/ (year a = year b /\ (month a < month b \/ (month a = month b /\ day a < day b))).
Proof.
  unfold ltb, compare.
  destruct (Z.compare_spec (year a) (year b)); destruct (Z.compare_spec (month a) (month b));
  destruct (Z.compare_spec (day a) (day b)); split; intros; try lia; try discriminate; try reflexivity.
Qed.

Lemma days_before_year_succ y :
  days_before_year (y + 1) = days_before_year y + (if is_leap y then 366 else 365).
Proof.
  unfold days_before_year, is_leap. cbv zeta.
  replace (y + 1 - 1) with y by lia.
  destruct (Z.eqb_spec (y mod 4) 0), (Z.eqb_spec (y mod 100) 0), (Z.eqb_spec (y mod 400) 0); cbn;
  Z.div_mod_to_equations; lia.
Qed.

Lemma days_before_year_mono y1 y2 :
  y1 <= y2 -> days_before_year y1 + 365 * (y2 - y1) <= days_before_year y2.
Proof.
  unfold days_before_year. cbv zeta. intros H.
  Z.div_mod_to_equations. lia.
Qed.

Lemma valid_iff d : valid d = true <->
  1 <= year d <= 9999 /\ 1 <= month d <= 12 /\ 1 <= day d <= days_in_month (year d) (month d).
Proof.
  unfold valid, MINYEAR, MAXYEAR.
  rewrite !andb_true_iff, !Z.leb_le. tauto.
Qed.

Ltac each_month m :=
  let H := fresh in
  assert (H : m = 1 \/ m = 2 \/ m = 3 \/ m = 4 \/ m = 5 \/ m = 6 \/ m = 7 \/
              m = 8 \/ m = 9 \/ m = 10 \/ m = 11 \/ m = 12) by lia;
  repeat (destruct H as [H | H]); subst m.

Ltac eval_table :=
  repeat match goal with
  | |- context [nth ?n ?l ?d] =>
      let v := eval vm_compute in (nth n l d) in change (nth n l d) with v
  | |- context [(?a <? ?b)%Z] =>
      let v := eval vm_compute in (a <? b)%Z in change (a <? b)%Z with v
  | |- context [(?a =? ?b)%Z] =>
      let v := eval vm_compute in (a =? b)%Z in change (a =? b)%Z with v
  end; cbn [andb orb].

Lemma days_before_month_succ y m :
  1 <= m < 12 ->
  days_before_month y (m + 1) = days_before_month y m + days_in_month y m.
Proof.
  intros Hm. unfold days_before_month, days_in_month.
  each_month m; try lia; destruct (is_leap y); reflexivity.
Qed.

Lemma days_before_month_december y :
  days_before_month y 12 + 31 = if is_leap y then 366 else 365.
Proof. unfold days_before_month. destruct (is_leap y); reflexivity. Qed.

Lemma days_before_month_mono y m1 m2 :
  1 <= m1 -> m1 < m2 -> m2 <= 12 ->
  days_before_month y m1 + days_in_month y m1 <= days_before_month y m2.
Proof.
  intros H1 H2 H3. unfold days_before_month, days_in_month.
  each_month m1; each_month m2; try lia; destruct (is_leap y); eval_table; lia.
Qed.

Lemma day_of_year_bounds y m d :
  1 <= m <= 12 -> 1 <= d <= days_in_month y m ->
  1 <= days_before_month y m + d <= if is_leap y then 366 else 365.
Proof.
  intros Hm. unfold days_before_month, days_in_month.
  each_month m; try lia; destruct (is_leap y); eval_table; lia.
Qed.

Lemma toordinal_lt a b :
  valid a = true -> valid b = true ->
  (ltb a b = true <-> toordinal a < toordinal b).
Proof.
  rewrite !valid_iff, ltb_iff. intros (Hya & Hma & Hda) (Hyb & Hmb & Hdb).
  unfold toordinal.
  pose proof (day_of_year_bounds (year a) (month a) (day a) Hma Hda) as Ba.
  pose proof (day_of_year_bounds (year b) (month b) (day b) Hmb Hdb) as Bb.
  destruct (Z.lt_trichotomy (year a) (year b)) as [Hy | [Hy | Hy]].
  - pose proof (days_before_year_succ (year a)) as S.
    pose proof (days_before_year_mono (year a + 1) (year b) ltac:(lia)) as M.
    destruct (is_leap (year a)); split; intros; lia.
  - rewrite Hy in *.
    destruct (Z.lt_trichotomy (month a) (month b)) as [Hm | [Hm | Hm]].
    + pose proof (days_before_month_mono (year b) (month a) (month b) ltac:(lia) Hm ltac:(lia)).
      split; intros; lia.
    + rewrite Hm in *. split; intros; lia.
    + pose proof (days_before_month_mono (year b) (month b) (month a) ltac:(lia) Hm ltac:(lia)).
      split; intros; lia.
  - pose proof (days_before_year_succ (year b)) as S.
    pose proof (days_before_year_mono (year b + 1) (year a) ltac:(lia)) as M.
    destruct (is_leap (year b)); split; intros; lia.
Qed.

Lemma days_in_month_bounds y m : 28 <= days_in_month y m <= 31.
Proof.
  unfold days_in_month.
  destruct (m =? 2); [destruct (is_leap y); lia|].
  destruct ((m =? 4) || (m =? 6) || (m =? 9) || (m =? 11)); lia.
Qed.

Lemma leb_negb_ltb a b : leb a b = negb (ltb b a).
Proof.
  destruct (leb a b) eqn:E1; destruct (ltb b a) eqn:E2; try reflexivity; exfalso.
  - apply leb_iff in E1. apply ltb_iff in E2. lia.
  - assert (H : ~ (leb a b = true)) by congruence.
    assert (H' : ~ (ltb b a = true)) by congruence.
    rewrite leb_iff in H. rewrite ltb_iff in H'. lia.
Qed.

Lemma toordinal_le a b :
  valid a = true -> valid b = true ->
  (leb a b = true <-> toordinal a <= toordinal b).
Proof.
  intros Ha Hb. rewrite leb_negb_ltb, negb_true_iff.
  pose proof (toordinal_lt b a Hb Ha) as H.
  destruct (ltb b a).
  - split; [discriminate|]. intros L.
    assert (toordinal b < toordinal a) by (apply H; reflexivity). lia.
  - split; [|reflexivity]. intros _.
    destruct (Z.lt_ge_cases (toordinal b) (toordinal a)) as [L|L]; [|lia].
    apply H in L. discriminate.
Qed.

Lemma next_day_spec d :
  valid d = true -> toordinal d < MAXORDINAL ->
  valid (next_day d) = true /\ toordinal (next_day d) = toordinal d + 1.
Proof.
  intros Hv Hlt. pose proof Hv as Hv'. apply valid_iff in Hv'.
  destruct Hv' as (Hy & Hm & Hd).
  unfold next_day.
  destruct (Z.ltb_spec (day d) (days_in_month (year d) (month d))) as [L|L].
  - split; [apply valid_iff; cbn; lia | unfold toordinal; cbn; lia].
  - destruct (Z.ltb_spec (month d) 12) as [M|M].
    + pose proof (days_in_month_bounds (year d) (month d + 1)).
      pose proof (days_before_month_succ (year d) (month d) ltac:(lia)).
      split; [apply valid_iff; cbn; lia | unfold toordinal; cbn; lia].
    + assert (Em : month d = 12) by lia.
      assert (Ed : day d = 31).
      { rewrite Em in *. unfold days_in_month in *. cbn in *. lia. }
      assert (Hy' : year d < 9999).
      { destruct (Z.eq_dec (year d) 9999) as [E|E]; [|lia].
        exfalso. unfold toordinal in Hlt. rewrite E, Em, Ed in Hlt.
        vm_compute in Hlt. discriminate. }
      pose proof (days_before_year_succ (year d)) as S.
      pose proof (days_before_month_december (year d)) as D.
      split.
      * apply valid_iff; cbn. unfold days_in_month. cbn. lia.
      * unfold toordinal; cbn. rewrite S, Em, Ed.
        change (days_before_month (year d + 1) 1) with
          (0 + (if (2 <? 1) && is_leap (year d + 1) then 1 else 0)).
        cbn [Z.ltb Z.compare Pos.compare Pos.compare_cont andb]. lia.
Qed.

Lemma iter_next_day n d :
  valid d = true -> toordinal d + Z.of_nat n <= MAXORDINAL ->
  valid (Nat.iter n next_day d) = true /\
  toordinal (Nat.iter n next_day d) = toordinal d + Z.of_nat n.
Proof.
  intros Hv. induction n as [|n IH]; intros Hle.
  - cbn. split; [exact Hv | lia].
  - destruct IH as [IV IO]; [lia|].
    change (Nat.iter (S n) next_day d) with (next_day (Nat.iter n next_day d)).
    destruct (next_day_spec (Nat.iter n next_day d) IV) as [NV NO]; [lia|].
    split; [exact NV | lia].
Qed.

Lemma add_days_spec d n r :
  valid d = true -> add_days d n = Ok r ->
  valid r = true /\ toordinal r = toordinal d + Z.of_nat n.
Proof.
  intros Hv. unfold add_days.
  destruct (Z.leb_spec (toordinal d + Z.of_nat n) MAXORDINAL) as [L|L];
    [|discriminate].
  intros H. injection H as <-. apply iter_next_day; assumption.
Qed.

Lemma add_days_ok d n :
  toordinal d + Z.of_nat n <= MAXORDINAL -> is_ok (add_days d n) = true.
Proof.
  intros L. unfold add_days.
  destruct (Z.leb_spec (toordinal d + Z.of_nat n) MAXORDINAL); [reflexivity|lia].
Qed.

Lemma make_spec y m d r :
  make y m d = Ok r -> r = mk y m d /\ valid r = true.
Proof.
  unfold make.
  destruct ((MINYEAR <=? y) && (y <=? MAXYEAR)) eqn:E1; cbn; [|discriminate].
  destruct ((1 <=? m) && (m <=? 12)) eqn:E2; cbn; [|discriminate].
  destruct ((1 <=? d) && (d <=? days_in_month y m)) eqn:E3; cbn; [|discriminate].
  intros H. injection H as <-. split; [reflexivity|].
  unfold valid; cbn.
  apply andb_true_iff in E1, E2, E3.
  destruct E1 as [-> ->], E2 as [-> ->], E3 as [-> ->]. reflexivity.
Qed.

Lemma make_valid d : valid d = true -> make (year d) (month d) (day d) = Ok d.
Proof.
  unfold valid, make. intros H.
  repeat (apply andb_true_iff in H; destruct H as [H ?]).
  rewrite H, H0, H1, H2, H3, H4. cbn. destruct d; reflexivity.
Qed.

End DateFacts.

(* ================================================================= *)
(** * The loop of get_upcoming_birthdays *)

Lemma bind_ok {A B} (m : result A) (f : A -> result B) (b : B) :
  bind m f = Ok b -> exists a, m = Ok a /\ f a = Ok b.
Proof. destruct m as [a|e]; cbn; [eauto | discriminate]. Qed.

Lemma loop_acc (today limit : Date.t) (recs : list Record.t) (acc : list entry) :
  AddressBook.loop today limit recs acc
  = (res <- AddressBook.loop today limit recs [] ;; Ok (acc ++ res)).
Proof.
  revert acc. induction recs as [|rec rest IH]; intros acc; cbn.
  - rewrite app_nil_r. reflexivity.
  - destruct (AddressBook.visit today limit rec) as [[e|]|x]; cbn.
    + rewrite (IH (acc ++ [e])), (IH [e]).
      destruct (AddressBook.loop today limit rest []); cbn;
        [rewrite <- app_assoc|]; reflexivity.
    + apply IH.
    + reflexivity.
Qed.

Lemma loop_spec (today limit : Date.t) (recs : list Record.t) (res : list entry) :
  AddressBook.loop today limit recs [] = Ok res ->
  (forall rec, In rec recs -> is_ok (AddressBook.visit today limit rec) = true) /\
  (forall e, In e res <->
     exists rec, In rec recs /\ AddressBook.visit today limit rec = Ok (Some e)).
Proof.
  revert res. induction recs as [|rec rest IH]; intros res; cbn.
  - intros H. injection H as <-. split; [intros ? []|].
    intros e. split; [intros [] | intros (? & [] & _)].
  - destruct (AddressBook.visit today limit rec) as [o|x] eqn:V; cbn;
      [|discriminate].
    assert (Hrest : forall res',
      AddressBook.loop today limit rest [] = Ok res' ->
      (forall r, In r (rec :: rest) ->
         is_ok (AddressBook.visit today limit r) = true) /\
      (forall e, In e res' <->
         exists r, In r rest /\ AddressBook.visit today limit r = Ok (Some e))).
    { intros res' H'. destruct (IH res' H') as [I1 I2]. split; [|exact I2].
      intros r [<- | Hr]; [rewrite V; reflexivity | auto]. }
    destruct o as [e0|].
    + rewrite loop_acc. intros H. apply bind_ok in H.
      destruct H as (res' & L & H). injection H as <-.
      destruct (Hrest res' L) as [I1 I2]. split; [exact I1|].
      intros e. cbn. rewrite I2. split.
      * intros [<- | (r & Hr & Hv)]; [exists rec; auto | exists r; auto].
      * intros (r & [<- | Hr] & Hv).
        -- rewrite V in Hv. injection Hv as ->. left; reflexivity.
        -- right. exists r; auto.
    + intros L. destruct (Hrest res L) as [I1 I2]. split; [exact I1|].
      intros e. rewrite I2. split.
      * intros (r & Hr & Hv). exists r; auto.
      * intros (r & [<- | Hr] & Hv); [rewrite V in Hv; discriminate|].
        exists r; auto.
Qed.

Lemma insert_sorted_in (x e : entry) (l : list entry) :
  In e (insert_sorted x l) <-> e = x \/ In e l.
Proof.
  induction l as [|y r IH]; cbn.
  - intuition auto.
  - destruct (Date.ltb (e_birthday y) (e_birthday x)); cbn.
    + rewrite IH. intuition auto.
    + intuition auto.
Qed.

Lemma sorted_in (e : entry) (l : list entry) : In e (sorted l) <-> In e l.
Proof.
  induction l as [|x r IH]; cbn; [reflexivity|].
  rewrite insert_sorted_in, IH. intuition auto.
Qed.

Lemma get_upcoming_birthdays_spec (today : Date.t) (book : AddressBook.t)
  (res : list entry) :
  AddressBook.get_upcoming_birthdays today book = Ok res ->
  exists limit,
    Date.add_days today 6 = Ok limit /\
    (forall rec, In rec (AddressBook.values book) ->
       is_ok (AddressBook.visit today limit rec) = true) /\
    (forall e, In e res <->
       exists rec, In rec (AddressBook.values book) /\
                   AddressBook.visit today limit rec = Ok (Some e)).
Proof.
  unfold AddressBook.get_upcoming_birthdays. intros H.
  apply bind_ok in H. destruct H as (limit & HL & H).
  apply bind_ok in H. destruct H as (res0 & H0 & H).
  injection H as <-. exists limit. split; [exact HL|].
  destruct (loop_spec _ _ _ _ H0) as [I1 I2]. split; [exact I1|].
  intros e. rewrite sorted_in. apply I2.
Qed.

(** What one visit that appends an entry went through. *)
Lemma visit_some (today limit : Date.t) (rec : Record.t) (e : entry) :
  AddressBook.visit today limit rec = Ok (Some e) <->
  exists b bd a g,
    Record.birthday rec = Some b /\
    Strptime.strptime (Birthday.value b) = Ok bd /\
    AddressBook.anchor today bd = Ok a /\
    Date.leb today a = true /\ Date.leb a limit = true /\
    AddressBook.greeting_of a = Ok g /\
    e = mk_entry (Record.name rec) g.
Proof.
  unfold AddressBook.visit. split.
  - destruct (Record.birthday rec) as [b|]; [|discriminate].
    destruct (Strptime.strptime (Birthday.value b)) as [bd|x] eqn:P;
      [|discriminate].
    destruct (AddressBook.anchor today bd) as [a|x] eqn:HA; cbn; [|discriminate].
    destruct (Date.leb today a) eqn:L1; cbn; [|discriminate].
    destruct (Date.leb a limit) eqn:L2; cbn; [|discriminate].
    destruct (AddressBook.greeting_of a) as [g|x] eqn:G; cbn; [|discriminate].
    intros H. injection H as <-. exists b, bd, a, g. repeat split; auto.
  - intros (b & bd & a & g & -> & -> & HA & L1 & L2 & G & ->).
    rewrite HA. cbn. rewrite L1, L2. cbn. rewrite G. reflexivity.
Qed.

Lemma anchor_spec (today bd a : Date.t) :
  AddressBook.anchor today bd = Ok a ->
  a = anchored today bd /\ Date.valid a = true.
Proof.
  unfold AddressBook.anchor, anchored, Date.replace_year.
  destruct (Date.make (Date.year today) (Date.month bd) (Date.day bd))
    as [a0|x] eqn:M; cbn; [|discriminate].
  apply make_spec in M. destruct M as [-> V0].
  destruct (Date.ltb _ today).
  - intros M. apply make_spec in M. exact M.
  - intros H. injection H as <-. auto.
Qed.

Lemma greeting_of_spec (a g : Date.t) :
  Date.valid a = true -> AddressBook.greeting_of a = Ok g ->
  Date.valid g = true /\
  Date.toordinal g = (Date.toordinal a + weekend_shift a)%Z /\
  (weekend_shift a = 0%Z -> g = a).
Proof.
  unfold AddressBook.greeting_of, weekend_shift. intros V.
  destruct (Date.weekday a =? 5)%Z.
  - intros H. destruct (add_days_spec _ _ _ V H) as [V' O].
    repeat split; [exact V' | rewrite O; reflexivity | discriminate].
  - destruct (Date.weekday a =? 6)%Z.
    + intros H. destruct (add_days_spec _ _ _ V H) as [V' O].
      repeat split; [exact V' | rewrite O; reflexivity | discriminate].
    + intros H. injection H as <-. repeat split; [exact V | lia].
Qed.

Lemma weekend_shift_bounds (d : Date.t) : (0 <= weekend_shift d <= 2)%Z.
Proof.
  unfold weekend_shift.
  destruct (Date.weekday d =? 5)%Z; [lia|].
  destruct (Date.weekday d =? 6)%Z; lia.
Qed.

Lemma strptime_valid (s : pystr) (bd : Date.t) :
  Strptime.strptime s = Ok bd -> Date.valid bd = true.
Proof.
  unfold Strptime.strptime.
  destruct (Strptime.format_regex_match s) as [[[[d m] y] rest]|]; [|discriminate].
  destruct rest; [|discriminate].
  intros H.
  apply bind_ok in H. destruct H as (yy & _ & H).
  apply bind_ok in H. destruct H as (mm & _ & H).
  apply bind_ok in H. destruct H as (dd & _ & H).
  apply make_spec in H. apply H.
Qed.

Lemma make_ok (y m d : Z) :
  (1 <= y <= 9999)%Z -> (1 <= m <= 12)%Z ->
  (1 <= d <= Date.days_in_month y m)%Z ->
  Date.make y m d = Ok (Date.mk y m d).
Proof.
  intros Hy Hm Hd. unfold Date.make, Date.MINYEAR, Date.MAXYEAR.
  replace ((1 <=? y)%Z && (y <=? 9999)%Z) with true
    by (symmetry; apply andb_true_iff; split; apply Z.leb_le; lia).
  replace ((1 <=? m)%Z && (m <=? 12)%Z) with true
    by (symmetry; apply andb_true_iff; split; apply Z.leb_le; lia).
  replace ((1 <=? d)%Z && (d <=? Date.days_in_month y m)%Z) with true
    by (symmetry; apply andb_true_iff; split; apply Z.leb_le; lia).
  reflexivity.
Qed.

Lemma days_in_month_any_year (y0 y m d : Z) :
  (d <= Date.days_in_month y0 m)%Z -> ~ (m = 2 /\ d = 29)%Z ->
  (d <= Date.days_in_month y m)%Z.
Proof.
  unfold Date.days_in_month.
  destruct (Z.eqb_spec m 2) as [E|E].
  - destruct (Date.is_leap y0), (Date.is_leap y); lia.
  - lia.
Qed.

Lemma toordinal_before_last_year (d : Date.t) :
  Date.valid d = true -> (Date.year d < 9999)%Z ->
  (Date.toordinal d + 365 <= Date.MAXORDINAL)%Z.
Proof.
  intros V Hy.
  assert (L : Date.ltb d (Date.mk 9999 1 1) = true)
    by (apply ltb_iff; cbn; lia).
  apply toordinal_lt in L; [|exact V|reflexivity].
  change (Date.toordinal (Date.mk 9999 1 1)) with 3651695%Z in L.
  unfold Date.MAXORDINAL. lia.
Qed.

Lemma loop_ok (today limit : Date.t) (recs : list Record.t) (acc : list entry) :
  (forall rec, In rec recs -> is_ok (AddressBook.visit today limit rec) = true) ->
  is_ok (AddressBook.loop today limit recs acc) = true.
Proof.
  revert acc. induction recs as [|rec rest IH]; intros acc H; cbn; [reflexivity|].
  pose proof (H rec (or_introl eq_refl)) as Hr.
  destruct (AddressBook.visit today limit rec) as [[e|]|x]; cbn;
    [apply IH | apply IH | discriminate]; intros r Hin; apply H; right; exact Hin.
Qed.

Lemma anchor_ok (today bd : Date.t) :
  Date.valid today = true -> (Date.year today < 9999)%Z ->
  Date.valid bd = true -> ~ (Date.month bd = 2 /\ Date.day bd = 29)%Z ->
  is_ok (AddressBook.anchor today bd) = true.
Proof.
  intros Vt Hy Vb Hn. apply valid_iff in Vt, Vb.
  destruct Vb as (_ & Hm & Hd).
  unfold AddressBook.anchor, Date.replace_year.
  rewrite make_ok; [cbn | lia | lia |].
  - destruct (Date.ltb _ today); [|reflexivity].
    rewrite make_ok; [reflexivity | lia | lia |].
    split; [lia | eapply days_in_month_any_year; [apply Hd | exact Hn]].
  - split; [lia | eapply days_in_month_any_year; [apply Hd | exact Hn]].
Qed.

Lemma visit_ok (today limit : Date.t) (rec : Record.t) :
  Date.valid today = true -> (Date.year today < 9999)%Z ->
  Date.add_days today 6 = Ok limit ->
  (forall b bd, Record.birthday rec = Some b ->
     Strptime.strptime (Birthday.value b) = Ok bd ->
     ~ (Date.month bd = 2 /\ Date.day bd = 29)%Z) ->
  is_ok (AddressBook.visit today limit rec) = true.
Proof.
  intros Vt Hy HL Hn. unfold AddressBook.visit.
  destruct (Record.birthday rec) as [b|]; [|reflexivity].
  destruct (Strptime.strptime (Birthday.value b)) as [bd|x] eqn:P; [|reflexivity].
  pose proof (anchor_ok today bd Vt Hy (strptime_valid _ _ P) (Hn b bd eq_refl P)) as A.
  destruct (AddressBook.anchor today bd) as [a|x] eqn:HA; [|discriminate].
  cbn. destruct (anchor_spec _ _ _ HA) as [_ Va].
  destruct (add_days_spec _ _ _ Vt HL) as [Vl Ol].
  destruct (Date.leb today a) eqn:L1; cbn; [|reflexivity].
  destruct (Date.leb a limit) eqn:L2; cbn; [|reflexivity].
  apply toordinal_le in L2; [|exact Va|exact Vl].
  pose proof (toordinal_before_last_year today Vt Hy) as B.
  assert (G : is_ok (AddressBook.greeting_of a) = true).
  { unfold AddressBook.greeting_of.
    destruct (Date.weekday a =? 5)%Z; [apply add_days_ok; lia|].
    destruct (Date.weekday a =? 6)%Z; [apply add_days_ok; lia|reflexivity]. }
  destruct (AddressBook.greeting_of a); [reflexivity | discriminate].
Qed.

(** Away from the end of the calendar and without birthdays on a 29th of
    February, [get_upcoming_birthdays] returns a list. *)
Lemma get_upcoming_birthdays_total (today : Date.t) (book : AddressBook.t) :
  Date.valid today = true -> (Date.year today < 9999)%Z -> no_leap_day book ->
  exists res, AddressBook.get_upcoming_birthdays today book = Ok res.
Proof.
  intros Vt Hy Hn. unfold AddressBook.get_upcoming_birthdays.
  pose proof (toordinal_before_last_year today Vt Hy) as B.
  pose proof (add_days_ok today 6 ltac:(lia)) as HL.
  destruct (Date.add_days today 6) as [limit|x] eqn:EL; [|discriminate].
  cbn.
  assert (L : is_ok (AddressBook.loop today limit (AddressBook.values book) []) = true).
  { apply loop_ok. intros rec Hin. apply visit_ok; auto.
    intros b bd Hb P. exact (Hn rec b bd Hin Hb P). }
  destruct (AddressBook.loop today limit (AddressBook.values book) []) as [r|x];
    [|discriminate].
  cbn. eauto.
Qed.

Lemma NoDup_keys_functional {A B} (l : list (A * B)) (k : A) (x y : B) :
  NoDup (map fst l) -> In (k, x) l -> In (k, y) l -> x = y.
Proof.
  induction l as [|[k' z] r IH]; cbn; intros ND Hx Hy; [contradiction|].
  inversion ND as [|? ? Hnot ND']; subst.
  destruct Hx as [Ex | Hx], Hy as [Ey | Hy].
  - congruence.
  - injection Ex as -> ->. exfalso. apply Hnot.
    change k with (fst (k, y)). apply in_map. exact Hy.
  - injection Ey as -> ->. exfalso. apply Hnot.
    change k with (fst (k, x)). apply in_map. exact Hx.
  - apply IH; assumption.
Qed.

Lemma book_wf_names (book : AddressBook.t) (r1 r2 : Record.t) :
  book_wf book ->
  In r1 (AddressBook.values book) -> In r2 (AddressBook.values book) ->
  Record.name r1 = Record.name r2 -> r1 = r2.
Proof.
  intros [ND HK] H1 H2 E. unfold AddressBook.values in *.
  apply in_map_iff in H1, H2.
  destruct H1 as ([k1 x1] & <- & I1), H2 as ([k2 x2] & <- & I2).
  cbn [snd] in *.
  assert (N1 : Record.name x1 = k1) by (apply HK; exact I1).
  assert (N2 : Record.name x2 = k2) by (apply HK; exact I2).
  assert (K : k2 = k1) by congruence. rewrite K in I2.
  exact (NoDup_keys_functional book k1 x1 x2 ND I1 I2).
Qed.

Lemma dict_set_in (k k0 : pystr) (r r0 : Record.t) (d : AddressBook.t) :
  In (k0, r0) (AddressBook.dict_set k r d) ->
  (k0 = k /\ r0 = r) \/ In (k0, r0) d.
Proof.
  induction d as [|[k' r'] rest IH]; cbn.
  - intros [E | []]. injection E as <- <-. auto.
  - destruct (pystr_eq_dec k' k) as [E|E]; cbn.
    + intros [H | H]; [injection H as <- <-; auto | auto].
    + intros [H | H]; [auto | destruct (IH H); auto].
Qed.

Lemma dict_set_NoDup (k : pystr) (r : Record.t) (d : AddressBook.t) :
  NoDup (map fst d) -> NoDup (map fst (AddressBook.dict_set k r d)).
Proof.
  induction d as [|[k' r'] rest IH]; intros ND.
  - cbn. repeat constructor. intros [].
  - inversion ND as [|? ? Hnot ND']; subst.
    cbn [AddressBook.dict_set].
    destruct (pystr_eq_dec k' k) as [E|E]; [exact ND|].
    cbn [map fst]. constructor; [|apply IH; exact ND'].
    intros Hin. apply in_map_iff in Hin. destruct Hin as ([k0 r0] & E0 & Hin).
    cbn [fst] in E0. subst k0.
    apply dict_set_in in Hin. destruct Hin as [[? _] | Hin]; [congruence|].
    apply Hnot. change k' with (fst (k', r0)). apply in_map. exact Hin.
Qed.

(** [add_record] keeps the dictionary invariant. *)
Lemma add_record_wf (record : Record.t) (book : AddressBook.t) :
  book_wf book -> book_wf (AddressBook.add_record record book).
Proof.
  intros [ND HK]. unfold AddressBook.add_record. split.
  - apply dict_set_NoDup. exact ND.
  - intros k r H. apply dict_set_in in H.
    destruct H as [[-> ->] | H]; [reflexivity | auto].
Qed.

Lemma empty_wf : book_wf AddressBook.empty.
Proof. split; [constructor | intros k r []]. Qed.

(* ================================================================= *)
(** * get_upcoming_birthdays: the claims *)

(** What the run establishes about one record with a parsable birthday,
    when the call returns: whether it is visited into an entry is decided by
    the 7-day window on the anchored date, and the entry carries the
    weekend-shifted date. *)
Lemma visit_window (today limit : Date.t) (rec : Record.t)
  (b : Birthday.t) (bd : Date.t) :
  Date.valid today = true ->
  Date.add_days today 6 = Ok limit ->
  Record.birthday rec = Some b ->
  Strptime.strptime (Birthday.value b) = Ok bd ->
  is_ok (AddressBook.visit today limit rec) = true ->
  let a := anchored today bd in
  (within_days today 6 a ->
   exists g, AddressBook.visit today limit rec
             = Ok (Some (mk_entry (Record.name rec) g)) /\
             Date.valid g = true /\
             Date.toordinal g = (Date.toordinal a + weekend_shift a)%Z /\
             (weekend_shift a = 0%Z -> g = a)) /\
  (forall e, AddressBook.visit today limit rec = Ok (Some e) ->
             within_days today 6 a).
Proof.
  intros Vt HL Hb P Hok a.
  destruct (add_days_spec _ _ _ Vt HL) as [Vl Ol].
  unfold AddressBook.visit in *. rewrite Hb, P in *.
  destruct (AddressBook.anchor today bd) as [a'|x] eqn:HA; [|discriminate].
  destruct (anchor_spec _ _ _ HA) as [Ea Va]. fold a in Ea. subst a'.
  cbn in *. unfold within_days.
  pose proof (toordinal_le today a Vt Va) as T1.
  pose proof (toordinal_le a limit Va Vl) as T2.
  destruct (Date.leb today a) eqn:L1; cbn in *.
  - destruct (Date.leb a limit) eqn:L2; cbn in *.
    + destruct (AddressBook.greeting_of a) as [g|x] eqn:G; [|discriminate].
      cbn in *. destruct (greeting_of_spec _ _ Va G) as (Vg & Og & Zg).
      split.
      * intros _. exists g. auto.
      * intros e _. change (Z.of_nat 6) with 6%Z in Ol.
        destruct T1 as [T1 _], T2 as [T2 _].
        specialize (T1 eq_refl). specialize (T2 eq_refl). lia.
    + split.
      * intros W. exfalso. change (Z.of_nat 6) with 6%Z in Ol.
        destruct T2 as [_ T2]. assert (false = true) by (apply T2; lia).
        discriminate.
      * intros e He. discriminate.
  - split.
    + intros W. exfalso.
      destruct T1 as [_ T1]. assert (false = true) by (apply T1; lia).
      discriminate.
    + intros e He. discriminate.
Qed.

(** Every entry of a returned result comes from a record whose anchored
    birthday is in the window, and carries its weekend-shifted date. *)
Lemma entry_origin (today : Date.t) (book : AddressBook.t) (res : list entry) :
  Date.valid today = true ->
  AddressBook.get_upcoming_birthdays today book = Ok res ->
  forall e, In e res ->
    exists rec b bd,
      In rec (AddressBook.values book) /\
      Record.birthday rec = Some b /\
      Strptime.strptime (Birthday.value b) = Ok bd /\
      e_name e = Record.name rec /\
      within_days today 6 (anchored today bd) /\
      Date.valid (e_birthday e) = true /\
      Date.toordinal (e_birthday e)
      = (Date.toordinal (anchored today bd) + weekend_shift (anchored today bd))%Z /\
      (weekend_shift (anchored today bd) = 0%Z -> e_birthday e = anchored today bd).
Proof.
  intros Vt H. apply get_upcoming_birthdays_spec in H.
  destruct H as (limit & HL & Hok & Hres).
  intros e He. apply Hres in He. destruct He as (rec & Hin & Hv).
  pose proof Hv as Hv'. apply visit_some in Hv'.
  destruct Hv' as (b & bd & a0 & g0 & Hb & P & _ & _ & _ & _ & Ee).
  exists rec, b, bd.
  destruct (visit_window today limit rec b bd Vt HL Hb P (Hok rec Hin))
    as [Hin_w Hw].
  pose proof (Hw e Hv) as W.
  destruct (Hin_w W) as (g & Hv2 & Vg & Og & Zg).
  rewrite Hv in Hv2. injection Hv2 as ->. cbn.
  repeat split; auto; apply W.
Qed.

(** X26: on a book that satisfies the dictionary invariant, whenever
    [get_upcoming_birthdays] returns, a record with a birthday has an entry
    in the result if and only if its birthday, anchored to the current year
    (to the next year when that date is before today), lies in
    [today, today + 6 days]; and the call does return when today is before
    year 9999 and no birthday is a 29th of February. *)
Theorem X26_window_membership (today : Date.t) (book : AddressBook.t) :
  Date.valid today = true -> book_wf book ->
  ((Date.year today < 9999)%Z -> no_leap_day book ->
   exists res, AddressBook.get_upcoming_birthdays today book = Ok res) /\
  (forall res, AddressBook.get_upcoming_birthdays today book = Ok res ->
   forall rec b bd,
     In rec (AddressBook.values book) ->
     Record.birthday rec = Some b ->
     Strptime.strptime (Birthday.value b) = Ok bd ->
     ((exists g, In (mk_entry (Record.name rec) g) res) <->
      within_days today 6 (anchored today bd))).
Proof.
  intros Vt Wf. split.
  - intros Hy Hn. apply get_upcoming_birthdays_total; assumption.
  - intros res H rec b bd Hin Hb P.
    apply get_upcoming_birthdays_spec in H.
    destruct H as (limit & HL & Hok & Hres).
    destruct (visit_window today limit rec b bd Vt HL Hb P (Hok rec Hin))
      as [Hin_w Hw].
    split.
    + intros (g & Hg). apply Hres in Hg. destruct Hg as (rec' & Hin' & Hv).
      assert (Hn : Record.name rec' = Record.name rec).
      { apply visit_some in Hv.
        destruct Hv as (? & ? & ? & ? & _ & _ & _ & _ & _ & _ & E).
        injection E as E _. symmetry. exact E. }
      rewrite (book_wf_names book rec' rec Wf Hin' Hin Hn) in Hv.
      eapply Hw. exact Hv.
    + intros W. destruct (Hin_w W) as (g & Hv & _).
      exists g. apply Hres. exists rec. auto.
Qed.

(** C2: whenever [get_upcoming_birthdays] returns, every record whose
    anchored birthday lies in the window (tested on the anchored date
    itself) has an entry whose greeting date is the anchored date plus 2
    days when that is a Saturday, plus 1 day when it is a Sunday, and the
    anchored date itself otherwise; and every entry of the result is such an
    entry of some record. *)
Theorem C2_weekend_shift (today : Date.t) (book : AddressBook.t)
  (res : list entry) :
  Date.valid today = true ->
  AddressBook.get_upcoming_birthdays today book = Ok res ->
  (forall rec b bd,
     In rec (AddressBook.values book) ->
     Record.birthday rec = Some b ->
     Strptime.strptime (Birthday.value b) = Ok bd ->
     let a := anchored today bd in
     within_days today 6 a ->
     exists g, In (mk_entry (Record.name rec) g) res /\
               Date.valid g = true /\
               Date.toordinal g = (Date.toordinal a + weekend_shift a)%Z /\
               (weekend_shift a = 0%Z -> g = a)) /\
  (forall e, In e res ->
     exists rec b bd,
       In rec (AddressBook.values book) /\
       Record.birthday rec = Some b /\
       Strptime.strptime (Birthday.value b) = Ok bd /\
       e_name e = Record.name rec /\
       let a := anchored today bd in
       within_days today 6 a /\
       Date.valid (e_birthday e) = true /\
       Date.toordinal (e_birthday e) = (Date.toordinal a + weekend_shift a)%Z /\
       (weekend_shift a = 0%Z -> e_birthday e = a)).
Proof.
  intros Vt H. split; [|exact (entry_origin today book res Vt H)].
  apply get_upcoming_birthdays_spec in H.
  destruct H as (limit & HL & Hok & Hres).
  intros rec b bd Hin Hb P a W.
  destruct (visit_window today limit rec b bd Vt HL Hb P (Hok rec Hin))
    as [Hin_w _].
  destruct (Hin_w W) as (g & Hv & Hg). exists g. split; [|exact Hg].
  apply Hres. exists rec. auto.
Qed.

(** C10: whenever [get_upcoming_birthdays] returns, every greeting date in
    the result lies in [today, today + 8 days]; the bound is reached: on
    Sunday 9 June 2024 a birthday on 15 June (a Saturday, today + 6) is
    reported for Monday 17 June, today + 8. *)
Theorem C10_greeting_range :
  (forall today book res,
     Date.valid today = true ->
     AddressBook.get_upcoming_birthdays today book = Ok res ->
     forall e, In e res ->
       Date.valid (e_birthday e) = true /\
       Date.leb today (e_birthday e) = true /\
       within_days today 8 (e_birthday e)) /\
  (let today := Date.mk 2024 6 9 in
   let book := [(str "Bob", Record.mk (str "Bob") []
                               (Some (Birthday.mk (str "15.06.1990"))))] in
   AddressBook.get_upcoming_birthdays today book
   = Ok [mk_entry (str "Bob") (Date.mk 2024 6 17)] /\
   Date.toordinal (Date.mk 2024 6 17) = (Date.toordinal today + 8)%Z).
Proof.
  split; [|vm_compute; split; reflexivity].
  intros today book res Vt H e He.
  destruct (entry_origin today book res Vt H e He)
    as (rec & b & bd & _ & _ & _ & _ & W & Vg & Og & _).
  pose proof (weekend_shift_bounds (anchored today bd)) as B.
  unfold within_days in *.
  split; [exact Vg|]. split; [apply toordinal_le; auto; lia | lia].
Qed.

Lemma sample_book_wf : book_wf sample_book.
Proof. apply add_record_wf, add_record_wf, empty_wf. Qed.

Lemma X26_window_membership_witness :
  (exists g, In (mk_entry (Record.name alice) g)
               [mk_entry (str "Alice") (Date.mk 2024 6 10)]) <->
  within_days (Date.mk 2024 6 8) 6 (anchored (Date.mk 2024 6 8) (Date.mk 1990 6 10)).
Proof.
  refine (proj2 (X26_window_membership (Date.mk 2024 6 8) sample_book _ _)
            [mk_entry (str "Alice") (Date.mk 2024 6 10)] _
            alice (Birthday.mk (str "10.06.1990")) (Date.mk 1990 6 10) _ _ _).
  - reflexivity.
  - exact sample_book_wf.
  - vm_compute. reflexivity.
  - left. reflexivity.
  - reflexivity.
  - vm_compute. reflexivity.
Defined.

Lemma C2_weekend_shift_witness :
  exists g, In (mk_entry (Record.name bob) g)
              [mk_entry (str "Alice") (Date.mk 2024 6 10);
               mk_entry (str "Bob") (Date.mk 2024 6 17)] /\
            Date.valid g = true /\
            Date.toordinal g
            = (Date.toordinal (Date.mk 2024 6 15)
               + weekend_shift (Date.mk 2024 6 15))%Z /\
            (weekend_shift (Date.mk 2024 6 15) = 0%Z -> g = Date.mk 2024 6 15).
Proof.
  refine (proj1 (C2_weekend_shift (Date.mk 2024 6 9) sample_book
                   [mk_entry (str "Alice") (Date.mk 2024 6 10);
                    mk_entry (str "Bob") (Date.mk 2024 6 17)] _ _)
            bob (Birthday.mk (str "15.06.1990")) (Date.mk 1990 6 15) _ _ _ _).
  - reflexivity.
  - vm_compute. reflexivity.
  - right. left. reflexivity.
  - reflexivity.
  - vm_compute. reflexivity.
  - vm_compute. split; discriminate.
Defined.

Lemma C10_greeting_range_witness :
  Date.valid (Date.mk 2024 6 17) = true /\
  Date.leb (Date.mk 2024 6 9) (Date.mk 2024 6 17) = true /\
  within_days (Date.mk 2024 6 9) 8 (Date.mk 2024 6 17).
Proof.
  refine (proj1 C10_greeting_range (Date.mk 2024 6 9) sample_book
            [mk_entry (str "Alice") (Date.mk 2024 6 10);
             mk_entry (str "Bob") (Date.mk 2024 6 17)] _ _
            (mk_entry (str "Bob") (Date.mk 2024 6 17)) _).
  - reflexivity.
  - vm_compute. reflexivity.
  - right. left. reflexivity.
Defined.

(* ================================================================= *)
(** * The result is sorted *)

Lemma entry_le_trans (x y z : entry) :
  entry_le x y -> entry_le y z -> entry_le x z.
Proof. unfold entry_le. rewrite !leb_iff. lia. Qed.

Lemma insert_sorted_sorted (x : entry) (l : list entry) :
  StronglySorted entry_le l -> StronglySorted entry_le (insert_sorted x l).
Proof.
  induction l as [|y r IH]; intros S; cbn.
  - repeat constructor.
  - inversion S as [|? ? Sr Fy]; subst.
    destruct (Date.ltb (e_birthday y) (e_birthday x)) eqn:L.
    + constructor; [apply IH; exact Sr|].
      apply Forall_forall. intros e He. apply insert_sorted_in in He.
      destruct He as [-> | He].
      * unfold entry_le. apply leb_iff. apply ltb_iff in L. lia.
      * rewrite Forall_forall in Fy. auto.
    + assert (Lxy : entry_le x y).
      { unfold entry_le. rewrite leb_negb_ltb, L. reflexivity. }
      constructor; [exact S|]. constructor; [exact Lxy|].
      eapply Forall_impl; [|exact Fy]. intros e He.
      eapply entry_le_trans; eassumption.
Qed.

Lemma sorted_sorted (l : list entry) : StronglySorted entry_le (sorted l).
Proof.
  induction l as [|x r IH]; cbn; [constructor | apply insert_sorted_sorted, IH].
Qed.

Lemma loop_no_birthdays (today limit : Date.t) (recs : list Record.t)
  (acc : list entry) :
  (forall rec, In rec recs -> Record.birthday rec = None) ->
  AddressBook.loop today limit recs acc = Ok acc.
Proof.
  induction recs as [|rec rest IH]; intros H; cbn; [reflexivity|].
  unfold AddressBook.visit. rewrite (H rec (or_introl eq_refl)). cbn.
  apply IH. intros r Hr. apply H. right. exact Hr.
Qed.

(** C9: a returned result is in ascending order of greeting date (each
    entry's date is at most the date of every later entry), and on a book in
    which no record has a birthday the call returns the empty list, whenever
    today + 6 days is still a date (today is at most 25 December 9999). *)
Theorem C9_sorted_result (today : Date.t) (book : AddressBook.t) :
  (forall res, AddressBook.get_upcoming_birthdays today book = Ok res ->
     StronglySorted entry_le res) /\
  ((Date.toordinal today + 6 <= Date.MAXORDINAL)%Z ->
   (forall rec, In rec (AddressBook.values book) -> Record.birthday rec = None) ->
   AddressBook.get_upcoming_birthdays today book = Ok []).
Proof.
  unfold AddressBook.get_upcoming_birthdays. split.
  - intros res H.
    apply bind_ok in H. destruct H as (limit & _ & H).
    apply bind_ok in H. destruct H as (res0 & _ & H).
    injection H as <-. apply sorted_sorted.
  - intros L H. pose proof (add_days_ok today 6 L) as A.
    destruct (Date.add_days today 6) as [limit|x]; [|discriminate].
    cbn. rewrite loop_no_birthdays by exact H. reflexivity.
Qed.

Lemma C9_sorted_result_witness :
  StronglySorted entry_le
    [mk_entry (str "Alice") (Date.mk 2024 6 10);
     mk_entry (str "Bob") (Date.mk 2024 6 17)] /\
  AddressBook.get_upcoming_birthdays (Date.mk 2024 6 9)
    [(str "Ann", Record.init (str "Ann"))] = Ok [].
Proof.
  split.
  - refine (proj1 (C9_sorted_result (Date.mk 2024 6 9) sample_book) _ _).
    vm_compute. reflexivity.
  - refine (proj2 (C9_sorted_result (Date.mk 2024 6 9)
                     [(str "Ann", Record.init (str "Ann"))]) _ _).
    + vm_compute. discriminate.
    + intros rec [<- | []]. reflexivity.
Defined.

(* ================================================================= *)
(** * Birthdays on a 29th of February *)

(** C3 does not hold of the code: the birthday "29.02.2000" is accepted by
    the [Birthday] constructor, and with it in the book the call on
    1 March 2023 raises the ValueError of [date.replace] instead of
    returning a list; so it does on 1 March 2024, when the anchoring moves
    to the year 2025. *)
Theorem C3_leap_day_raises :
  Birthday.init (str "29.02.2000") = Ok (Birthday.mk (str "29.02.2000")) /\
  Record.add_birthday (str "29.02.2000") (Record.init (str "Leap")) = (Ok tt, leap) /\
  AddressBook.get_upcoming_birthdays (Date.mk 2023 3 1)
    (AddressBook.add_record leap AddressBook.empty)
  = Raise (ValueError "day is out of range for month") /\
  AddressBook.get_upcoming_birthdays (Date.mk 2024 3 1)
    (AddressBook.add_record leap AddressBook.empty)
  = Raise (ValueError "day is out of range for month").
Proof. vm_compute. repeat split. Qed.

(** C1 does not hold of the code, by the same defect: on 1 March 2023 the
    book holds Alice, whose birthday 03.03.1990 was accepted by
    [add_birthday] and whose anchored date 3 March 2023 lies in
    [today, today + 6 days], next to a contact born on 29.02.2000; the call
    raises the ValueError of [date.replace] and so returns no result that
    could include Alice.  Without the second contact she is included. *)
Theorem C1_leap_day_hides_window :
  let today := Date.mk 2023 3 1 in
  Record.add_birthday (str "03.03.1990") (Record.init (str "Alice"))
  = (Ok tt, alice_march) /\
  book_wf leap_book /\
  In alice_march (AddressBook.values leap_book) /\
  Strptime.strptime (str "03.03.1990") = Ok (Date.mk 1990 3 3) /\
  anchored today (Date.mk 1990 3 3) = Date.mk 2023 3 3 /\
  within_days today 6 (anchored today (Date.mk 1990 3 3)) /\
  AddressBook.get_upcoming_birthdays today leap_book
  = Raise (ValueError "day is out of range for month") /\
  AddressBook.get_upcoming_birthdays today
    (AddressBook.add_record alice_march AddressBook.empty)
  = Ok [mk_entry (str "Alice") (Date.mk 2023 3 3)].
Proof.
  cbv zeta. split; [reflexivity|].
  split; [apply add_record_wf, add_record_wf, empty_wf|].
  split; [left; reflexivity|].
  split; [vm_compute; reflexivity|].
  split; [reflexivity|].
  split; [vm_compute; split; discriminate|].
  split; vm_compute; reflexivity.
Qed.

(* ================================================================= *)
(** * Birthday: what strptime accepts *)

Lemma two_in (p1 p2 : char -> bool) (s t r : pystr) :
  In (t, r) (Strptime.two p1 p2 s) <->
  exists c1 c2,
    t = [c1; c2] /\ s = c1 :: c2 :: r /\ p1 c1 = true /\ p2 c2 = true.
Proof.
  unfold Strptime.two. destruct s as [|c1 [|c2 r']].
  - split; [intros [] | intros (? & ? & _ & E & _); discriminate].
  - split; [intros [] | intros (? & ? & _ & E & _); discriminate].
  - destruct (p1 c1 && p2 c2) eqn:E.
    + apply andb_true_iff in E. destruct E as [E1 E2]. split.
      * intros [H | []]. injection H as <- <-. exists c1, c2. auto.
      * intros (x1 & x2 & -> & E & _ & _). injection E as <- <- <-.
        left; reflexivity.
    + split; [intros []|].
      intros (x1 & x2 & -> & E' & H1 & H2). injection E' as <- <- <-.
      rewrite H1, H2 in E. discriminate.
Qed.

Lemma one_in (p : char -> bool) (s t r : pystr) :
  In (t, r) (Strptime.one p s) <->
  exists c, t = [c] /\ s = c :: r /\ p c = true.
Proof.
  unfold Strptime.one. destruct s as [|c r'].
  - split; [intros [] | intros (? & _ & E & _); discriminate].
  - destruct (p c) eqn:E; split.
    + intros [H | []]. injection H as <- <-. exists c. auto.
    + intros (x & -> & E' & _). injection E' as <- <-. left; reflexivity.
    + intros [].
    + intros (x & -> & E' & H). injection E' as <- <-. congruence.
Qed.

Lemma re_d_in (s t r : pystr) :
  In (t, r) (Strptime.re_d s) <-> s = t ++ r /\ day_text t = true.
Proof.
  unfold Strptime.re_d. rewrite !in_app_iff, !two_in, one_in. split.
  - intros [H | [H | [H | [H | H]]]].
    + destruct H as (c1 & c2 & -> & -> & H1 & H2). split; [reflexivity|].
      cbn [day_text]. rewrite H1, H2. reflexivity.
    + destruct H as (c1 & c2 & -> & -> & H1 & H2). split; [reflexivity|].
      cbn [day_text]. rewrite H1, H2. cbn. rewrite orb_true_r. reflexivity.
    + destruct H as (c1 & c2 & -> & -> & H1 & H2). split; [reflexivity|].
      cbn [day_text]. rewrite H1, H2. cbn. rewrite !orb_true_r. reflexivity.
    + destruct H as (c & -> & -> & H1). split; [reflexivity | exact H1].
    + destruct H as (c1 & c2 & -> & -> & H1 & H2). split; [reflexivity|].
      cbn [day_text]. unfold Strptime.space in H1. rewrite H1, H2. cbn.
      rewrite !orb_true_r. reflexivity.
  - intros [-> D]. destruct t as [|c1 [|c2 [|]]]; try discriminate.
    + right; right; right; left. exists c1. auto.
    + cbn [day_text] in D. rewrite !orb_true_iff, !andb_true_iff in D.
      destruct D as [[[[H1 H2] | [H1 H2]] | [H1 H2]] | [H1 H2]].
      * left. exists c1, c2. auto.
      * right; left. exists c1, c2. auto.
      * right; right; left. exists c1, c2. auto.
      * right; right; right; right. exists c1, c2. auto.
Qed.

Lemma re_m_in (s t r : pystr) :
  In (t, r) (Strptime.re_m s) <-> s = t ++ r /\ month_text t = true.
Proof.
  unfold Strptime.re_m. rewrite !in_app_iff, !two_in, one_in. split.
  - intros [H | [H | H]].
    + destruct H as (c1 & c2 & -> & -> & H1 & H2). split; [reflexivity|].
      cbn [month_text]. rewrite H1, H2. reflexivity.
    + destruct H as (c1 & c2 & -> & -> & H1 & H2). split; [reflexivity|].
      cbn [month_text]. rewrite H1, H2. cbn. rewrite orb_true_r. reflexivity.
    + destruct H as (c & -> & -> & H1). split; [reflexivity | exact H1].
  - intros [-> D]. destruct t as [|c1 [|c2 [|]]]; try discriminate.
    + right; right. exists c1. auto.
    + cbn [month_text] in D. rewrite !orb_true_iff, !andb_true_iff in D.
      destruct D as [[H1 H2] | [H1 H2]].
      * left. exists c1, c2. auto.
      * right; left. exists c1, c2. auto.
Qed.

Lemma re_Y_in (s t r : pystr) :
  In (t, r) (Strptime.re_Y s) <-> s = t ++ r /\ year_text t = true.
Proof.
  unfold Strptime.re_Y. split.
  - destruct s as [|c1 [|c2 [|c3 [|c4 r']]]]; try (intros []).
    destruct (isdecimal c1 && isdecimal c2 && isdecimal c3 && isdecimal c4)
      eqn:E; intros H; [|destruct H].
    destruct H as [H | []]. injection H as <- <-. split; [reflexivity | exact E].
  - intros [-> Y].
    destruct t as [|c1 [|c2 [|c3 [|c4 [|]]]]]; try discriminate.
    cbn [year_text app] in *. rewrite Y. left; reflexivity.
Qed.

Lemma re_dot_in (s r : pystr) :
  In r (Strptime.re_dot s) <-> s = Strptime.dot :: r.
Proof.
  unfold Strptime.re_dot. destruct s as [|c r'].
  - split; [intros [] | discriminate].
  - destruct (N.eqb_spec c Strptime.dot) as [E|E]; split.
    + intros [<- | []]. rewrite E. reflexivity.
    + intros H. injection H as _ <-. left; reflexivity.
    + intros [].
    + intros H. injection H as H _. contradiction.
Qed.

Lemma all_matches_in (s d m y r : pystr) :
  In (d, m, y, r) (Strptime.all_matches s) <->
  s = d ++ Strptime.dot :: m ++ Strptime.dot :: y ++ r /\
  day_text d = true /\ month_text m = true /\ year_text y = true.
Proof.
  unfold Strptime.all_matches. split.
  - intros H.
    apply in_flat_map in H. destruct H as ([d' r1] & H1 & H).
    apply in_flat_map in H. destruct H as (r2 & H2 & H).
    apply in_flat_map in H. destruct H as ([m' r3] & H3 & H).
    apply in_flat_map in H. destruct H as (r4 & H4 & H).
    apply in_map_iff in H. destruct H as ([y' r5] & E & H5).
    injection E as <- <- <- <-.
    apply re_d_in in H1. apply re_dot_in in H2. apply re_m_in in H3.
    apply re_dot_in in H4. apply re_Y_in in H5.
    destruct H1 as [-> D], H3 as [E3 M], H5 as [E5 Y]. subst.
    auto.
  - intros (-> & D & M & Y).
    apply in_flat_map. exists (d, Strptime.dot :: m ++ Strptime.dot :: y ++ r).
    split; [apply re_d_in; auto|].
    apply in_flat_map. exists (m ++ Strptime.dot :: y ++ r).
    split; [apply re_dot_in; reflexivity|].
    apply in_flat_map. exists (m, Strptime.dot :: y ++ r).
    split; [apply re_m_in; auto|].
    apply in_flat_map. exists (y ++ r).
    split; [apply re_dot_in; reflexivity|].
    apply in_map_iff. exists (y, r). split; [reflexivity|].
    apply re_Y_in; auto.
Qed.

Lemma day_text_no_dot (t : pystr) :
  day_text t = true -> ~ In Strptime.dot t.
Proof.
  destruct t as [|c1 [|c2 [|]]]; try discriminate; cbn [day_text]; intros D.
  - intros [E | []]. subst c1. vm_compute in D. discriminate.
  - intros [E | [E | []]]; subst.
    + vm_compute in D. discriminate.
    + destruct (51 =? c1)%N, (Strptime.between 49 50 c1), (48 =? c1)%N,
        (32 =? c1)%N; vm_compute in D; discriminate.
Qed.

Lemma month_text_no_dot (t : pystr) :
  month_text t = true -> ~ In Strptime.dot t.
Proof.
  destruct t as [|c1 [|c2 [|]]]; try discriminate; cbn [month_text]; intros D.
  - intros [E | []]. subst c1. vm_compute in D. discriminate.
  - intros [E | [E | []]]; subst.
    + vm_compute in D. discriminate.
    + destruct (49 =? c1)%N, (48 =? c1)%N; vm_compute in D; discriminate.
Qed.

Lemma year_text_length (t : pystr) :
  year_text t = true -> List.length t = 4%nat.
Proof.
  destruct t as [|c1 [|c2 [|c3 [|c4 [|]]]]]; try discriminate. reflexivity.
Qed.

Lemma split_at_first {A} (a : A) (l1 l2 r1 r2 : list A) :
  ~ In a l1 -> ~ In a l2 ->
  l1 ++ a :: r1 = l2 ++ a :: r2 -> l1 = l2 /\ r1 = r2.
Proof.
  revert l2. induction l1 as [|x l1 IH]; intros [|y l2] N1 N2 E; cbn in *.
  - injection E as <-. auto.
  - injection E as <- _. exfalso. apply N2. left; reflexivity.
  - injection E as -> _. exfalso. apply N1. left; reflexivity.
  - injection E as <- E.
    destruct (IH l2) as [-> ->]; auto.
Qed.

(** A string has at most one reading as day [.] month [.] year. *)
Lemma all_matches_unique (ds ms ys d m y r : pystr) :
  day_text ds = true -> month_text ms = true -> year_text ys = true ->
  In (d, m, y, r)
     (Strptime.all_matches (ds ++ Strptime.dot :: ms ++ Strptime.dot :: ys)) ->
  (d, m, y, r) = (ds, ms, ys, []).
Proof.
  intros D M Y H. apply all_matches_in in H.
  destruct H as (E & D' & M' & Y').
  apply split_at_first in E; try (apply day_text_no_dot; assumption).
  destruct E as [<- E].
  apply split_at_first in E; try (apply month_text_no_dot; assumption).
  destruct E as [<- E].
  apply year_text_length in Y, Y'.
  assert (L : List.length r = 0%nat).
  { apply (f_equal (@List.length char)) in E. rewrite length_app in E. lia. }
  destruct r; [|discriminate]. rewrite app_nil_r in E. subst. reflexivity.
Qed.

Lemma format_regex_match_unique (ds ms ys : pystr) :
  day_text ds = true -> month_text ms = true -> year_text ys = true ->
  Strptime.format_regex_match (ds ++ Strptime.dot :: ms ++ Strptime.dot :: ys)
  = Some (ds, ms, ys, []).
Proof.
  intros D M Y. unfold Strptime.format_regex_match.
  assert (I : In (ds, ms, ys, [])
                (Strptime.all_matches
                   (ds ++ Strptime.dot :: ms ++ Strptime.dot :: ys))).
  { apply all_matches_in. rewrite app_nil_r. auto. }
  destruct (Strptime.all_matches _) as [|[[[d m] y] r] l] eqn:E; [destruct I|].
  cbn. f_equal. apply all_matches_unique; try assumption.
  rewrite E. left; reflexivity.
Qed.

Lemma format_regex_match_some (s d m y r : pystr) :
  Strptime.format_regex_match s = Some (d, m, y, r) ->
  s = d ++ Strptime.dot :: m ++ Strptime.dot :: y ++ r /\
  day_text d = true /\ month_text m = true /\ year_text y = true.
Proof.
  unfold Strptime.format_regex_match. intros H. apply all_matches_in.
  destruct (Strptime.all_matches s) as [|x l]; [discriminate|].
  injection H as ->. left; reflexivity.
Qed.

Lemma isdecimal_not_space (c : char) :
  isdecimal c = true -> Strptime.isspace c = false.
Proof.
  intros D. destruct (Strptime.isspace c) eqn:S; [exfalso | reflexivity].
  unfold isdecimal in D. unfold Strptime.isspace in S.
  apply existsb_exists in D. destruct D as ([lo hi] & Hr & Hc).
  apply existsb_exists in S. destruct S as ([lo' hi'] & Hw & Hc').
  assert (Hdis : forallb (fun r : N * N =>
                   forallb (fun w : N * N =>
                              (snd r <? fst w)%N || (snd w <? fst r)%N)
                     [ (9, 13); (32, 32); (133, 133); (160, 160); (5760, 5760);
                       (8192, 8202); (8232, 8233); (8239, 8239); (8287, 8287);
                       (12288, 12288) ]%N)
                   decimal_ranges = true) by (vm_compute; reflexivity).
  rewrite forallb_forall in Hdis. specialize (Hdis _ Hr).
  rewrite forallb_forall in Hdis. specialize (Hdis _ Hw).
  unfold in_range in Hc, Hc'. cbn [fst snd] in Hc, Hc', Hdis.
  rewrite andb_true_iff, !N.leb_le in Hc, Hc'.
  rewrite orb_true_iff, !N.ltb_lt in Hdis. lia.
Qed.

Lemma ascii_digit_decimal (c : char) :
  is_ascii_digit c = true -> isdecimal c = true.
Proof.
  intros H. unfold isdecimal.
  change decimal_ranges with ((48, 57)%N :: tl decimal_ranges).
  cbn [existsb]. unfold in_range at 1. cbn [fst snd].
  unfold is_ascii_digit in H. rewrite H. reflexivity.
Qed.

Lemma between_ascii_digit (lo hi : N) (c : char) :
  (48 <= lo)%N -> (hi <= 57)%N ->
  Strptime.between lo hi c = true -> is_ascii_digit c = true.
Proof.
  unfold Strptime.between, is_ascii_digit. intros L H B.
  rewrite andb_true_iff, !N.leb_le in *. lia.
Qed.

Lemma decimal_value_ascii (c : char) :
  is_ascii_digit c = true -> decimal_value c = (Z.of_N c - 48)%Z.
Proof.
  intros H. unfold decimal_value.
  change decimal_ranges with ((48, 57)%N :: tl decimal_ranges).
  cbn [find]. unfold in_range at 1. cbn [fst snd].
  unfold is_ascii_digit in H. rewrite H.
  apply andb_true_iff in H. rewrite !N.leb_le in H.
  rewrite N.mod_small by lia. lia.
Qed.

Lemma lstrip_decimal (t : pystr) :
  forallb isdecimal t = true -> Strptime.lstrip t = t.
Proof.
  destruct t as [|c r]; [reflexivity|]. cbn [forallb Strptime.lstrip]. intros H.
  apply andb_true_iff in H. destruct H as [H _].
  rewrite (isdecimal_not_space c H). reflexivity.
Qed.

Lemma strip_decimal (t : pystr) :
  forallb isdecimal t = true -> Strptime.strip t = t.
Proof.
  intros H. unfold Strptime.strip. rewrite (lstrip_decimal t H).
  rewrite lstrip_decimal; [apply rev_involutive|].
  apply forallb_forall. intros c Hc. apply in_rev in Hc.
  rewrite forallb_forall in H. auto.
Qed.

Lemma int_decimal (t : pystr) :
  t <> [] -> forallb isdecimal t = true -> Strptime.int t = Ok (number t).
Proof.
  intros N H. unfold Strptime.int. rewrite (strip_decimal t H).
  destruct t as [|c r]; [contradiction|]. rewrite H. reflexivity.
Qed.

Lemma int_space_digit (c : char) :
  Strptime.between 49 57 c = true ->
  Strptime.int [32%N; c] = Ok (number [32%N; c]).
Proof.
  intros B.
  assert (D : isdecimal c = true).
  { apply ascii_digit_decimal. eapply between_ascii_digit; [| |exact B]; lia. }
  pose proof (isdecimal_not_space c D) as S.
  unfold Strptime.int, Strptime.strip.
  change (Strptime.lstrip [32%N; c]) with (Strptime.lstrip [c]).
  cbn [Strptime.lstrip]. rewrite S. cbn [rev app Strptime.lstrip]. rewrite S.
  cbn [rev app forallb]. rewrite D. cbn [andb].
  unfold number. cbn [fold_left].
  change (decimal_value 32%N) with 0%Z. reflexivity.
Qed.

Lemma int_day (t : pystr) : day_text t = true -> Strptime.int t = Ok (number t).
Proof.
  destruct t as [|c1 [|c2 [|]]]; try discriminate; cbn [day_text]; intros D.
  - apply int_decimal; [discriminate|]. cbn [forallb].
    rewrite (ascii_digit_decimal c1); [reflexivity|].
    eapply between_ascii_digit; [| |exact D]; lia.
  - rewrite !orb_true_iff, !andb_true_iff in D.
    destruct D as [[[[H1 H2] | [H1 H2]] | [H1 H2]] | [H1 H2]].
    + apply N.eqb_eq in H1. subst c1.
      apply int_decimal; [discriminate|]. cbn [forallb].
      rewrite (ascii_digit_decimal c2); [reflexivity|].
      eapply between_ascii_digit; [| |exact H2]; lia.
    + apply int_decimal; [discriminate|]. cbn [forallb].
      rewrite H2, (ascii_digit_decimal c1); [reflexivity|].
      eapply between_ascii_digit; [| |exact H1]; lia.
    + apply N.eqb_eq in H1. subst c1.
      apply int_decimal; [discriminate|]. cbn [forallb].
      rewrite (ascii_digit_decimal c2); [reflexivity|].
      eapply between_ascii_digit; [| |exact H2]; lia.
    + apply N.eqb_eq in H1. subst c1. apply int_space_digit. exact H2.
Qed.

Lemma int_month (t : pystr) :
  month_text t = true -> Strptime.int t = Ok (number t).
Proof.
  destruct t as [|c1 [|c2 [|]]]; try discriminate; cbn [month_text]; intros D.
  - apply int_decimal; [discriminate|]. cbn [forallb].
    rewrite (ascii_digit_decimal c1); [reflexivity|].
    eapply between_ascii_digit; [| |exact D]; lia.
  - rewrite !orb_true_iff, !andb_true_iff in D.
    destruct D as [[H1 H2] | [H1 H2]]; apply N.eqb_eq in H1; subst c1;
      (apply int_decimal; [discriminate|]); cbn [forallb];
      (rewrite (ascii_digit_decimal c2); [reflexivity|]);
      (eapply between_ascii_digit; [| |exact H2]; lia).
Qed.

Lemma int_year (t : pystr) :
  year_text t = true -> Strptime.int t = Ok (number t).
Proof.
  destruct t as [|c1 [|c2 [|c3 [|c4 [|]]]]]; try discriminate.
  cbn [year_text]. intros Y. apply int_decimal; [discriminate|].
  cbn [forallb]. rewrite !andb_true_iff in Y.
  destruct Y as [[[-> ->] ->] ->]. reflexivity.
Qed.

(** [strptime] succeeds exactly on the strings that read as
    day [.] month [.] year and whose numbers make a date. *)
Lemma strptime_iff (s : pystr) (dt : Date.t) :
  Strptime.strptime s = Ok dt <->
  exists ds ms ys,
    s = ds ++ Strptime.dot :: ms ++ Strptime.dot :: ys /\
    day_text ds = true /\ month_text ms = true /\ year_text ys = true /\
    Date.make (number ys) (number ms) (number ds) = Ok dt.
Proof.
  unfold Strptime.strptime. split.
  - destruct (Strptime.format_regex_match s) as [[[[d m] y] r]|] eqn:E;
      [|discriminate].
    apply format_regex_match_some in E. destruct E as (-> & D & M & Y).
    destruct r; [|discriminate].
    rewrite (int_year y Y), (int_month m M), (int_day d D). cbn.
    intros H. exists d, m, y. rewrite app_nil_r. auto.
  - intros (ds & ms & ys & -> & D & M & Y & H).
    rewrite (format_regex_match_unique ds ms ys D M Y).
    rewrite (int_year ys Y), (int_month ms M), (int_day ds D). cbn. exact H.
Qed.

Lemma strptime_ok_iff (s : pystr) :
  is_ok (Strptime.strptime s) = true <-> lenient_date s.
Proof.
  unfold lenient_date. split.
  - destruct (Strptime.strptime s) as [dt|x] eqn:E; [|discriminate].
    intros _. apply strptime_iff in E.
    destruct E as (ds & ms & ys & -> & D & M & Y & H).
    exists ds, ms, ys. apply make_spec in H. destruct H as [-> V]. auto.
  - intros (ds & ms & ys & -> & D & M & Y & V).
    apply make_valid in V. cbn in V.
    assert (E : Strptime.strptime
                  (ds ++ Strptime.dot :: ms ++ Strptime.dot :: ys)
                = Ok (Date.mk (number ys) (number ms) (number ds))).
    { apply strptime_iff. exists ds, ms, ys. auto. }
    rewrite E. reflexivity.
Qed.

Lemma strict_date_lenient (s : pystr) : strict_date s = true -> lenient_date s.
Proof.
  unfold strict_date. intros H. apply andb_true_iff in H. destruct H as [F V].
  destruct s as [|d1 [|d2 [|p1 [|m1 [|m2 [|p2 [|y1 [|y2 [|y3 [|y4 [|]]]]]]]]]]];
    try discriminate.
  cbn [dd_mm_yyyy forallb] in F. cbn [denoted_date] in V.
  rewrite !andb_true_iff in F.
  destruct F as [[(A1 & A2 & A3 & A4 & A5 & A6 & A7 & A8 & _) P1] P2].
  apply N.eqb_eq in P1, P2. subst p1 p2.
  exists [d1; d2], [m1; m2], [y1; y2; y3; y4].
  pose proof V as V'. apply valid_iff in V'. cbn in V'.
  destruct V' as (_ & Hm & Hd).
  unfold number in Hm, Hd. cbn [fold_left] in Hm, Hd.
  match type of Hd with
  | context [Date.days_in_month ?y ?m] =>
      pose proof (days_in_month_bounds y m) as B
  end.
  rewrite (decimal_value_ascii d1 A1), (decimal_value_ascii d2 A2) in Hd.
  rewrite (decimal_value_ascii m1 A3), (decimal_value_ascii m2 A4) in Hm.
  pose proof (ascii_digit_decimal _ A2) as D2.
  unfold is_ascii_digit in A1, A2, A3, A4.
  rewrite andb_true_iff, !N.leb_le in A1, A2, A3, A4.
  split; [reflexivity|]. split; [|split; [|split]].
  - cbn [day_text]. rewrite D2. unfold Strptime.between.
    rewrite !orb_true_iff, !andb_true_iff, !N.eqb_eq, !N.leb_le. lia.
  - cbn [month_text]. unfold Strptime.between.
    rewrite !orb_true_iff, !andb_true_iff, !N.eqb_eq, !N.leb_le. lia.
  - cbn [year_text].
    rewrite (ascii_digit_decimal _ A5), (ascii_digit_decimal _ A6),
      (ascii_digit_decimal _ A7), (ascii_digit_decimal _ A8). reflexivity.
  - exact V.
Qed.

(** C5, as the specification states it, fails: "1.1.2000" is not in the
    format DD.MM.YYYY (day and month have one digit), yet [strptime] reads
    it and the constructor succeeds; so it does for a space-padded day. *)
Lemma C5_birthday_counterexample :
  dd_mm_yyyy (str "1.1.2000") = false /\
  Birthday.init (str "1.1.2000") = Ok (Birthday.mk (str "1.1.2000")) /\
  dd_mm_yyyy (str " 1.1.2000") = false /\
  Birthday.init (str " 1.1.2000") = Ok (Birthday.mk (str " 1.1.2000")).
Proof. vm_compute. repeat split. Qed.

(** C5, amended: [Birthday(s)] succeeds exactly when [s] reads as
    day [.] month [.] year in the texts [strptime] accepts for
    ["%d.%m.%Y"] (the day as one or two digits, 1 to 31, a single digit
    alone, zero-padded or space-padded; the month as one or two digits, 1 to
    12; the year as four digits) and the three numbers are a real calendar
    date with a year from 1 to 9999; it raises the constructor's ValueError
    for every other string; in particular it succeeds for every string in
    the format DD.MM.YYYY that denotes such a date. *)
Theorem C5_birthday_init (s : pystr) :
  (Birthday.init s = Ok (Birthday.mk s) <-> lenient_date s) /\
  (Birthday.init s = Raise (ValueError "Invalid date format. Use DD.MM.YYYY")
   <-> ~ lenient_date s) /\
  (strict_date s = true -> Birthday.init s = Ok (Birthday.mk s)).
Proof.
  pose proof (strptime_ok_iff s) as I.
  pose proof (strict_date_lenient s) as L.
  unfold Birthday.init.
  destruct (Strptime.strptime s) as [dt|x]; cbn in I.
  - split; [|split].
    + split; [intros _; apply I; reflexivity | reflexivity].
    + split; [discriminate|]. intros H. exfalso. apply H, I. reflexivity.
    + reflexivity.
  - split; [|split].
    + split; [discriminate|]. intros H. apply I in H. discriminate.
    + split; [|reflexivity]. intros _ H. apply I in H. discriminate.
    + intros H. apply L, I in H. discriminate.
Qed.

Lemma C5_birthday_init_witness :
  strict_date (str "10.06.1990") = true /\
  Birthday.init (str "10.06.1990") = Ok (Birthday.mk (str "10.06.1990")).
Proof.
  split; [reflexivity|].
  apply (C5_birthday_init (str "10.06.1990")). reflexivity.
Defined.

(* ================================================================= *)
(** * Record: further properties of the phone list *)

Lemma find_phone_decompose (self : Record.t) (number : pystr) (p : Phone.t) :
  Record.find_phone self number = Some p ->
  exists l1 l2,
    Record.phones self = l1 ++ p :: l2 /\ Phone.value p = number /\
    forall q, In q l1 -> Phone.value q <> number.
Proof.
  unfold Record.find_phone.
  induction (Record.phones self) as [|x l IH]; cbn; [discriminate|].
  unfold pystr_eqb at 1.
  destruct (pystr_eq_dec (Phone.value x) number) as [E|E].
  - intros H. injection H as <-. exists [], l.
    split; [reflexivity|]. split; [exact E|]. intros q [].
  - intros H. destruct (IH H) as (l1 & l2 & -> & Hv & Hn).
    exists (x :: l1), l2.
    split; [reflexivity|]. split; [exact Hv|].
    intros q [<- | Hq]; auto.
Qed.

Lemma find_phone_found (self : Record.t) (number : pystr) (l1 l2 : list Phone.t)
  (p : Phone.t) :
  Record.phones self = l1 ++ p :: l2 -> Phone.value p = number ->
  (forall q, In q l1 -> Phone.value q <> number) ->
  Record.find_phone self number = Some p.
Proof.
  unfold Record.find_phone. intros -> Hv Hn.
  induction l1 as [|x l1 IH]; cbn; unfold pystr_eqb at 1.
  - destruct (pystr_eq_dec (Phone.value p) number); [reflexivity | contradiction].
  - destruct (pystr_eq_dec (Phone.value x) number) as [E|E].
    + exfalso. apply (Hn x); [left; reflexivity | exact E].
    + apply IH. intros q Hq. apply Hn. right. exact Hq.
Qed.

(** X1: [find_phone(number)] returns none exactly when no stored phone has
    that value, and otherwise the first phone of the list with that value. *)
Theorem X1_find_phone_first (self : Record.t) (number : pystr) :
  (Record.find_phone self number = None <->
   forall p, In p (Record.phones self) -> Phone.value p <> number) /\
  (forall p, Record.find_phone self number = Some p <->
     exists l1 l2,
       Record.phones self = l1 ++ p :: l2 /\ Phone.value p = number /\
       forall q, In q l1 -> Phone.value q <> number).
Proof.
  split.
  - split; [|apply find_phone_none].
    intros H p Hp E.
    unfold Record.find_phone in H.
    apply (find_none _ _ H) in Hp. unfold pystr_eqb in Hp.
    destruct (pystr_eq_dec (Phone.value p) number); [discriminate | contradiction].
  - intros p. split; [apply find_phone_decompose|].
    intros (l1 & l2 & E & Hv & Hn). eapply find_phone_found; eassumption.
Qed.

Lemma list_remove_first {A} eq_dec (x : A) (l1 l2 : list A) :
  ~ In x l1 -> list_remove eq_dec x (l1 ++ x :: l2) = Ok (l1 ++ l2).
Proof.
  induction l1 as [|y l1 IH]; intros Hn; cbn.
  - destruct (eq_dec x x); [reflexivity | contradiction].
  - destruct (eq_dec y x) as [E|E].
    + exfalso. apply Hn. left. exact E.
    + rewrite IH; [reflexivity|]. intros H. apply Hn. right. exact H.
Qed.

Lemma list_index_first {A} eq_dec (x : A) (l1 l2 : list A) :
  ~ In x l1 -> list_index eq_dec x (l1 ++ x :: l2) = Ok (List.length l1).
Proof.
  induction l1 as [|y l1 IH]; intros Hn; cbn.
  - destruct (eq_dec x x); [reflexivity | contradiction].
  - destruct (eq_dec y x) as [E|E].
    + exfalso. apply Hn. left. exact E.
    + rewrite IH; [reflexivity|]. intros H. apply Hn. right. exact H.
Qed.

Lemma list_set_middle {A} (x y : A) (l1 l2 : list A) :
  list_set (List.length l1) y (l1 ++ x :: l2) = l1 ++ y :: l2.
Proof. induction l1 as [|z l1 IH]; cbn; [reflexivity | rewrite IH; reflexivity]. Qed.

Lemma not_in_by_value (p : Phone.t) (l : list Phone.t) :
  (forall q, In q l -> Phone.value q <> Phone.value p) -> ~ In p l.
Proof. intros H Hin. exact (H p Hin eq_refl). Qed.

(** X2: [add_phone(number)] with a number that passes [Phone.validate]
    appends exactly one phone at the end of the list (also when the number
    is stored already), keeps name and birthday, and leaves what
    [find_phone] answered before as it was, while [find_phone(number)] now
    succeeds; with any other number it raises the constructor's ValueError
    and the record is untouched. *)
Theorem X2_add_phone_appends (r : Record.t) (number : pystr) :
  (Phone.validate number = true ->
   Record.add_phone number r
   = (Ok tt, Record.mk (Record.name r)
                       (Record.phones r ++ [Phone.mk number])
                       (Record.birthday r)) /\
   Record.find_phone (snd (Record.add_phone number r)) number
   = Some (Phone.mk number) /\
   (forall m p, Record.find_phone r m = Some p ->
      Record.find_phone (snd (Record.add_phone number r)) m = Some p)) /\
  (Phone.validate number = false ->
   Record.add_phone number r
   = (Raise (ValueError "Phone number must contain exactly 10 digits."), r)).
Proof.
  unfold Record.add_phone, Phone.init. split; intros V; rewrite V; cbn.
  - split; [reflexivity|]. unfold Record.find_phone, Record.set_phones. cbn.
    split.
    + induction (Record.phones r) as [|x l IH]; cbn; unfold pystr_eqb at 1.
      * destruct (pystr_eq_dec number number); [reflexivity | contradiction].
      * destruct (pystr_eq_dec (Phone.value x) number) as [E|E]; [|exact IH].
        destruct x as [v]. cbn in E. subst v. reflexivity.
    + intros m p H. induction (Record.phones r) as [|x l IH]; cbn in *;
        [discriminate|].
      destruct (pystr_eqb (Phone.value x) m); [exact H | exact (IH H)].
  - reflexivity.
Qed.

Lemma X2_add_phone_appends_witness :
  Record.find_phone
    (snd (Record.add_phone (str "0501234567") (Record.init (str "Ann"))))
    (str "0501234567")
  = Some (Phone.mk (str "0501234567")).
Proof.
  exact (proj1 (proj2 (proj1 (X2_add_phone_appends (Record.init (str "Ann"))
                                  (str "0501234567")) eq_refl))).
Defined.

(** X3: [remove_phone(number)] drops the first phone with that value and
    nothing else: the phones before and after it keep their order, later
    phones with the same value stay; name and birthday are kept.  When no
    phone has the value it raises ValueError("Phone not found.") and the
    record is untouched. *)
Theorem X3_remove_phone_first (r : Record.t) (number : pystr) :
  (forall l1 l2 p,
     Record.phones r = l1 ++ p :: l2 -> Phone.value p = number ->
     (forall q, In q l1 -> Phone.value q <> number) ->
     Record.remove_phone number r
     = (Ok tt, Record.mk (Record.name r) (l1 ++ l2) (Record.birthday r))) /\
  ((forall p, In p (Record.phones r) -> Phone.value p <> number) ->
   Record.remove_phone number r = (Raise (ValueError "Phone not found."), r)).
Proof.
  split.
  - intros l1 l2 p E Hv Hn. unfold Record.remove_phone.
    rewrite (find_phone_found r number l1 l2 p E Hv Hn). rewrite E.
    rewrite list_remove_first; [reflexivity|].
    apply not_in_by_value. intros q Hq. rewrite Hv. auto.
  - intros H. unfold Record.remove_phone.
    rewrite (find_phone_none r number H). reflexivity.
Qed.

Lemma X3_remove_phone_first_witness :
  let r := Record.mk (str "Ann")
             [Phone.mk (str "0501234567"); Phone.mk (str "0670000000");
              Phone.mk (str "0501234567")] None in
  Record.remove_phone (str "0670000000") r
  = (Ok tt, Record.mk (str "Ann")
              [Phone.mk (str "0501234567"); Phone.mk (str "0501234567")] None).
Proof.
  apply (proj1 (X3_remove_phone_first
                  (Record.mk (str "Ann")
                     [Phone.mk (str "0501234567"); Phone.mk (str "0670000000");
                      Phone.mk (str "0501234567")] None)
                  (str "0670000000"))
           [Phone.mk (str "0501234567")] [Phone.mk (str "0501234567")]
           (Phone.mk (str "0670000000"))).
  - reflexivity.
  - reflexivity.
  - intros q [<- | []]. vm_compute. discriminate.
Defined.

(** X4: adding a valid number that the record does not hold yet and then
    removing it gives the record back. *)
Theorem X4_remove_after_add (r : Record.t) (number : pystr) :
  Phone.validate number = true ->
  (forall p, In p (Record.phones r) -> Phone.value p <> number) ->
  Record.remove_phone number (snd (Record.add_phone number r)) = (Ok tt, r).
Proof.
  intros V Hn.
  assert (A : Record.add_phone number r
              = (Ok tt, Record.mk (Record.name r)
                          (Record.phones r ++ [Phone.mk number])
                          (Record.birthday r))).
  { unfold Record.add_phone, Phone.init. rewrite V. reflexivity. }
  rewrite A. cbn [snd]. unfold Record.remove_phone.
  rewrite (find_phone_found _ number (Record.phones r) [] (Phone.mk number));
    [|reflexivity|reflexivity|exact Hn].
  cbn [Record.phones]. rewrite list_remove_first.
  - rewrite app_nil_r. destruct r; reflexivity.
  - apply not_in_by_value. exact Hn.
Qed.

Lemma X4_remove_after_add_witness :
  let r := Record.mk (str "Ann") [Phone.mk (str "0670000000")] None in
  Record.remove_phone (str "0501234567")
    (snd (Record.add_phone (str "0501234567") r)) = (Ok tt, r).
Proof.
  apply (X4_remove_after_add
           (Record.mk (str "Ann") [Phone.mk (str "0670000000")] None)
           (str "0501234567")).
  - reflexivity.
  - intros p [<- | []]. vm_compute. discriminate.
Defined.

(** X5: when [old] is stored, [edit_phone(old, new)] with a valid [new]
    replaces the first phone with value [old] in place: same position, same
    list length, every other phone, the name and the birthday unchanged;
    with an invalid [new] it raises the constructor's ValueError and the
    record is untouched. *)
Theorem X5_edit_phone_in_place (r : Record.t) (old new : pystr)
  (l1 l2 : list Phone.t) (p : Phone.t) :
  Record.phones r = l1 ++ p :: l2 -> Phone.value p = old ->
  (forall q, In q l1 -> Phone.value q <> old) ->
  (Phone.validate new = true ->
   Record.edit_phone old new r
   = (Ok tt, Record.mk (Record.name r) (l1 ++ Phone.mk new :: l2)
                       (Record.birthday r))) /\
  (Phone.validate new = false ->
   Record.edit_phone old new r
   = (Raise (ValueError "Phone number must contain exactly 10 digits."), r)).
Proof.
  intros E Hv Hn. unfold Record.edit_phone.
  rewrite (find_phone_found r old l1 l2 p E Hv Hn). rewrite E.
  rewrite list_index_first
    by (apply not_in_by_value; intros q Hq; rewrite Hv; auto).
  unfold Phone.init.
  split; intros V; rewrite V; cbn; [|reflexivity].
  unfold Record.set_phones. rewrite list_set_middle. reflexivity.
Qed.

Lemma X5_edit_phone_in_place_witness :
  let r := Record.mk (str "Ann")
             [Phone.mk (str "0501234567"); Phone.mk (str "0670000000")] None in
  Record.edit_phone (str "0670000000") (str "0930000000") r
  = (Ok tt, Record.mk (str "Ann")
              [Phone.mk (str "0501234567"); Phone.mk (str "0930000000")] None).
Proof.
  refine (proj1 (X5_edit_phone_in_place
                   (Record.mk (str "Ann")
                      [Phone.mk (str "0501234567"); Phone.mk (str "0670000000")]
                      None)
                   (str "0670000000") (str "0930000000")
                   [Phone.mk (str "0501234567")] [] (Phone.mk (str "0670000000"))
                   _ _ _) _).
  - reflexivity.
  - reflexivity.
  - intros q [<- | []]. vm_compute. discriminate.
  - reflexivity.
Defined.

(** X6: no method of [Record] changes the name; the phone methods leave the
    birthday alone and [add_birthday] leaves the phones alone, whether the
    call succeeds or raises. *)
Theorem X6_record_frame (r : Record.t) :
  (forall n, Record.name (snd (Record.add_phone n r)) = Record.name r /\
             Record.birthday (snd (Record.add_phone n r)) = Record.birthday r) /\
  (forall n, Record.name (snd (Record.remove_phone n r)) = Record.name r /\
             Record.birthday (snd (Record.remove_phone n r)) = Record.birthday r) /\
  (forall o n, Record.name (snd (Record.edit_phone o n r)) = Record.name r /\
               Record.birthday (snd (Record.edit_phone o n r)) = Record.birthday r) /\
  (forall s, Record.name (snd (Record.add_birthday s r)) = Record.name r /\
             Record.phones (snd (Record.add_birthday s r)) = Record.phones r).
Proof.
  repeat split.
  - unfold Record.add_phone. destruct (Phone.init n); reflexivity.
  - unfold Record.add_phone. destruct (Phone.init n); reflexivity.
  - unfold Record.remove_phone. destruct (Record.find_phone r n); [|reflexivity].
    destruct (list_remove _ _ _); reflexivity.
  - unfold Record.remove_phone. destruct (Record.find_phone r n); [|reflexivity].
    destruct (list_remove _ _ _); reflexivity.
  - unfold Record.edit_phone. destruct (Record.find_phone r o); [|reflexivity].
    destruct (list_index _ _ _); [|reflexivity].
    destruct (Phone.init n); reflexivity.
  - unfold Record.edit_phone. destruct (Record.find_phone r o); [|reflexivity].
    destruct (list_index _ _ _); [|reflexivity].
    destruct (Phone.init n); reflexivity.
  - unfold Record.add_birthday. destruct (Birthday.init s); reflexivity.
  - unfold Record.add_birthday. destruct (Birthday.init s); reflexivity.
Qed.

(** X7: [add_birthday(s)] sets the birthday to [s] as it was typed,
    replacing any earlier one, exactly when [s] reads as a date for
    [strptime]; otherwise it raises ValueError("Invalid date format. Use
    DD.MM.YYYY") and the earlier birthday stays. *)
Theorem X7_add_birthday_sets (r : Record.t) (s : pystr) :
  (lenient_date s ->
   Record.add_birthday s r
   = (Ok tt, Record.mk (Record.name r) (Record.phones r) (Some (Birthday.mk s)))) /\
  (~ lenient_date s ->
   Record.add_birthday s r
   = (Raise (ValueError "Invalid date format. Use DD.MM.YYYY"), r)).
Proof.
  pose proof (strptime_ok_iff s) as I.
  unfold Record.add_birthday, Birthday.init.
  destruct (Strptime.strptime s) as [d|x]; cbn in I; split; intros H.
  - reflexivity.
  - exfalso. apply H, I. reflexivity.
  - apply I in H. discriminate.
  - reflexivity.
Qed.

Lemma X7_add_birthday_sets_witness :
  Record.add_birthday (str "1.1.2000") alice
  = (Ok tt, Record.mk (str "Alice") [] (Some (Birthday.mk (str "1.1.2000")))).
Proof.
  refine (proj1 (X7_add_birthday_sets alice (str "1.1.2000")) _).
  exists (str "1"), (str "1"), (str "2000"). vm_compute. repeat split.
Defined.

(* ================================================================= *)
(** * AddressBook: find, delete and the place of a record *)

Lemma dict_get_none (k : pystr) (d : AddressBook.t) :
  AddressBook.dict_get k d = None <-> ~ In k (map fst d).
Proof.
  induction d as [|[k' r'] rest IH]; cbn.
  - split; [intros _ [] | reflexivity].
  - destruct (pystr_eq_dec k' k) as [E|E].
    + split; [discriminate | intros H; exfalso; apply H; left; exact E].
    + rewrite IH. split; [intros H [E' | I]; auto | intros H I; apply H; auto].
Qed.

Lemma dict_get_del_other (k k0 : pystr) (d : AddressBook.t) :
  k0 <> k ->
  AddressBook.dict_get k0 (AddressBook.dict_del k d) = AddressBook.dict_get k0 d.
Proof.
  intros Hne. induction d as [|[k' r'] rest IH]; cbn; [reflexivity|].
  destruct (pystr_eq_dec k' k) as [E|E]; cbn.
  - destruct (pystr_eq_dec k' k0); [congruence | reflexivity].
  - destruct (pystr_eq_dec k' k0); [reflexivity | exact IH].
Qed.

Lemma dict_get_del_same (k : pystr) (d : AddressBook.t) :
  NoDup (map fst d) ->
  AddressBook.dict_get k (AddressBook.dict_del k d) = None.
Proof.
  induction d as [|[k' r'] rest IH]; cbn; intros ND; [reflexivity|].
  inversion ND as [|? ? Hnot ND']; subst.
  destruct (pystr_eq_dec k' k) as [E|E]; cbn.
  - subst k'. apply dict_get_none. exact Hnot.
  - destruct (pystr_eq_dec k' k); [contradiction | apply IH; exact ND'].
Qed.

Lemma dict_del_length (k : pystr) (d : AddressBook.t) (r : Record.t) :
  AddressBook.dict_get k d = Some r ->
  S (List.length (AddressBook.dict_del k d)) = List.length d.
Proof.
  induction d as [|[k' r'] rest IH]; cbn; [discriminate|].
  destruct (pystr_eq_dec k' k); cbn; [reflexivity|].
  intros H. rewrite IH; auto.
Qed.

Lemma dict_del_in (k k0 : pystr) (r0 : Record.t) (d : AddressBook.t) :
  In (k0, r0) (AddressBook.dict_del k d) -> In (k0, r0) d.
Proof.
  induction d as [|[k' r'] rest IH]; cbn; [auto|].
  destruct (pystr_eq_dec k' k); cbn; [auto|].
  intros [H | H]; auto.
Qed.

Lemma dict_del_NoDup (k : pystr) (d : AddressBook.t) :
  NoDup (map fst d) -> NoDup (map fst (AddressBook.dict_del k d)).
Proof.
  induction d as [|[k' r'] rest IH]; cbn; intros ND; [constructor|].
  inversion ND as [|? ? Hnot ND']; subst.
  destruct (pystr_eq_dec k' k); cbn; [exact ND'|].
  constructor; [|apply IH; exact ND'].
  intros Hin. apply in_map_iff in Hin. destruct Hin as ([k0 r0] & E0 & Hin).
  cbn [fst] in E0. subst k0. apply dict_del_in in Hin.
  apply Hnot. change k' with (fst (k', r0)). apply in_map. exact Hin.
Qed.

(** X8: [delete(name)] of a stored name succeeds and removes exactly that
    entry (the book has distinct keys): the name is no longer found, every
    other name is found as before, and the book has one entry less; of a
    name that is not stored it raises KeyError("Not found.") and the book is
    untouched. *)
Theorem X8_delete_removes (book : AddressBook.t) (n : pystr) :
  (forall r, AddressBook.find n book = Some r -> NoDup (map fst book) ->
     fst (AddressBook.delete n book) = Ok tt /\
     AddressBook.find n (snd (AddressBook.delete n book)) = None /\
     (forall k, k <> n ->
        AddressBook.find k (snd (AddressBook.delete n book))
        = AddressBook.find k book) /\
     S (List.length (snd (AddressBook.delete n book))) = List.length book) /\
  (AddressBook.find n book = None ->
   AddressBook.delete n book = (Raise (KeyError "Not found."), book)).
Proof.
  unfold AddressBook.find, AddressBook.delete. split.
  - intros r H ND. rewrite H. cbn [fst snd].
    split; [reflexivity|]. split; [apply dict_get_del_same; exact ND|].
    split; [intros k Hk; apply dict_get_del_other; exact Hk|].
    eapply dict_del_length; exact H.
  - intros H. rewrite H. reflexivity.
Qed.

Lemma X8_delete_removes_witness :
  fst (AddressBook.delete (str "Alice") sample_book) = Ok tt /\
  AddressBook.find (str "Alice") (snd (AddressBook.delete (str "Alice") sample_book))
  = None /\
  (forall k, k <> str "Alice" ->
     AddressBook.find k (snd (AddressBook.delete (str "Alice") sample_book))
     = AddressBook.find k sample_book) /\
  S (List.length (snd (AddressBook.delete (str "Alice") sample_book)))
  = List.length sample_book.
Proof.
  refine (proj1 (X8_delete_removes sample_book (str "Alice")) alice _ _).
  - reflexivity.
  - exact (proj1 sample_book_wf).
Defined.

(** X9: the empty book satisfies the dictionary invariant (distinct keys,
    every record stored under its own name), and [add_record] and [delete]
    keep it, also when [delete] raises. *)
Theorem X9_book_invariant :
  book_wf AddressBook.empty /\
  (forall book record,
     book_wf book -> book_wf (AddressBook.add_record record book)) /\
  (forall book n,
     book_wf book -> book_wf (snd (AddressBook.delete n book))).
Proof.
  split; [exact empty_wf|]. split; [intros; apply add_record_wf; assumption|].
  intros book n [ND HK]. unfold AddressBook.delete.
  destruct (AddressBook.dict_get n book); cbn [snd]; [|split; assumption].
  split; [apply dict_del_NoDup; exact ND|].
  intros k r H. apply HK. eapply dict_del_in. exact H.
Qed.

Lemma X9_book_invariant_witness :
  book_wf (snd (AddressBook.delete (str "Alice") sample_book)).
Proof.
  apply (proj2 (proj2 X9_book_invariant) sample_book (str "Alice")).
  exact sample_book_wf.
Defined.

Lemma dict_set_absent (k : pystr) (r : Record.t) (d : AddressBook.t) :
  AddressBook.dict_get k d = None -> AddressBook.dict_set k r d = d ++ [(k, r)].
Proof.
  induction d as [|[k' r'] rest IH]; cbn; [reflexivity|].
  destruct (pystr_eq_dec k' k); [discriminate|].
  intros H. rewrite IH; auto.
Qed.

Lemma dict_del_appended (k : pystr) (r : Record.t) (d : AddressBook.t) :
  AddressBook.dict_get k d = None -> AddressBook.dict_del k (d ++ [(k, r)]) = d.
Proof.
  induction d as [|[k' r'] rest IH]; cbn.
  - destruct (pystr_eq_dec k k); [reflexivity | contradiction].
  - destruct (pystr_eq_dec k' k); [discriminate|].
    intros H. rewrite IH; auto.
Qed.

(** X10: adding a record whose name is not in the book and then deleting
    that name gives the book back. *)
Theorem X10_delete_after_add (book : AddressBook.t) (record : Record.t) :
  AddressBook.find (Record.name record) book = None ->
  AddressBook.delete (Record.name record) (AddressBook.add_record record book)
  = (Ok tt, book).
Proof.
  unfold AddressBook.find, AddressBook.delete, AddressBook.add_record. intros H.
  rewrite dict_get_set_same, (dict_set_absent _ _ _ H), (dict_del_appended _ _ _ H).
  reflexivity.
Qed.

Lemma X10_delete_after_add_witness :
  AddressBook.delete (str "Leap") (AddressBook.add_record leap sample_book)
  = (Ok tt, sample_book).
Proof.
  apply (X10_delete_after_add sample_book leap). reflexivity.
Defined.

(** X11: [add_record] puts a record with a new name at the end of the book,
    and a record with a stored name in the place of the record it replaces:
    the order of the entries, which is the order [get_upcoming_birthdays]
    visits them in, is otherwise unchanged. *)
Theorem X11_add_record_place (book : AddressBook.t) (record : Record.t) :
  (AddressBook.find (Record.name record) book = None ->
   AddressBook.add_record record book = book ++ [(Record.name record, record)]) /\
  (forall old, AddressBook.find (Record.name record) book = Some old ->
     exists l1 l2,
       book = l1 ++ (Record.name record, old) :: l2 /\
       ~ In (Record.name record) (map fst l1) /\
       AddressBook.add_record record book
       = l1 ++ (Record.name record, record) :: l2).
Proof.
  unfold AddressBook.find, AddressBook.add_record. split.
  - apply dict_set_absent.
  - generalize (Record.name record) as k. intros k.
    induction book as [|[k' r'] rest IH]; cbn; intros old H; [discriminate|].
    destruct (pystr_eq_dec k' k) as [E|E].
    + injection H as <-. subst k'. exists [], rest. cbn. auto.
    + destruct (IH old H) as (l1 & l2 & -> & Hn & Hs).
      exists ((k', r') :: l1), l2. cbn. rewrite Hs.
      split; [reflexivity|]. split; [|reflexivity].
      intros [E' | I]; [contradiction | exact (Hn I)].
Qed.

Lemma X11_add_record_place_witness :
  AddressBook.add_record leap sample_book = sample_book ++ [(str "Leap", leap)].
Proof.
  apply (proj1 (X11_add_record_place sample_book leap)). reflexivity.
Defined.

(* ================================================================= *)
(** * get_upcoming_birthdays: further properties *)

(** X12: whenever [get_upcoming_birthdays] returns, no greeting date in the
    result is a Saturday or a Sunday: each is a Monday to Friday. *)
Theorem X12_greeting_on_weekday (today : Date.t) (book : AddressBook.t)
  (res : list entry) :
  Date.valid today = true ->
  AddressBook.get_upcoming_birthdays today book = Ok res ->
  forall e, In e res -> (0 <= Date.weekday (e_birthday e) <= 4)%Z.
Proof.
  intros Vt H e He.
  destruct (entry_origin today book res Vt H e He)
    as (rec & b & bd & _ & _ & _ & _ & _ & _ & Og & _).
  unfold weekend_shift in Og. unfold Date.weekday in *. rewrite Og.
  destruct (Z.eqb_spec ((Date.toordinal (anchored today bd) + 6) mod 7) 5) as [E5|E5].
  - cbv beta iota. Z.div_mod_to_equations. lia.
  - destruct (Z.eqb_spec ((Date.toordinal (anchored today bd) + 6) mod 7) 6)
      as [E6|E6]; cbv beta iota; Z.div_mod_to_equations; lia.
Qed.

Lemma X12_greeting_on_weekday_witness :
  (0 <= Date.weekday (Date.mk 2024 6 17) <= 4)%Z.
Proof.
  refine (X12_greeting_on_weekday (Date.mk 2024 6 9) sample_book
            [mk_entry (str "Alice") (Date.mk 2024 6 10);
             mk_entry (str "Bob") (Date.mk 2024 6 17)] _ _
            (mk_entry (str "Bob") (Date.mk 2024 6 17)) _).
  - reflexivity.
  - vm_compute. reflexivity.
  - right. left. reflexivity.
Defined.

Lemma loop_entries (today limit : Date.t) (recs : list Record.t)
  (raw : list entry) :
  AddressBook.loop today limit recs [] = Ok raw ->
  raw = entries_in_order today limit recs.
Proof.
  revert raw. induction recs as [|rec rest IH]; intros raw; cbn.
  - intros H. injection H as <-. reflexivity.
  - destruct (AddressBook.visit today limit rec) as [[e|]|x]; cbn;
      [| apply IH | discriminate].
    rewrite loop_acc. intros H. apply bind_ok in H.
    destruct H as (raw' & L & H). injection H as <-.
    rewrite (IH raw' L). reflexivity.
Qed.

Lemma insert_sorted_perm (x : entry) (l : list entry) :
  Permutation (x :: l) (insert_sorted x l).
Proof.
  induction l as [|y r IH]; cbn; [reflexivity|].
  destruct (Date.ltb (e_birthday y) (e_birthday x)); [|reflexivity].
  rewrite perm_swap. apply perm_skip. exact IH.
Qed.

Lemma sorted_perm (l : list entry) : Permutation l (sorted l).
Proof.
  induction l as [|x r IH]; cbn; [constructor|].
  rewrite <- insert_sorted_perm. apply perm_skip. exact IH.
Qed.

Lemma compare_eq_lt_l (a b d : Date.t) :
  Date.compare a d = Eq -> Date.compare b d = Eq -> Date.ltb a b = false.
Proof.
  unfold Date.ltb, Date.compare.
  destruct (Z.compare_spec (Date.year a) (Date.year d));
    destruct (Z.compare_spec (Date.month a) (Date.month d));
    destruct (Z.compare_spec (Date.day a) (Date.day d)); try discriminate.
  destruct (Z.compare_spec (Date.year b) (Date.year d));
    destruct (Z.compare_spec (Date.month b) (Date.month d));
    destruct (Z.compare_spec (Date.day b) (Date.day d)); try discriminate.
  intros _ _.
  destruct (Z.compare_spec (Date.year a) (Date.year b));
    destruct (Z.compare_spec (Date.month a) (Date.month b));
    destruct (Z.compare_spec (Date.day a) (Date.day b)); try lia; auto.
Qed.

Lemma insert_sorted_filter (d : Date.t) (x : entry) (l : list entry) :
  filter (on_date d) (insert_sorted x l) = filter (on_date d) (x :: l).
Proof.
  induction l as [|y r IH]; [reflexivity|].
  cbn [insert_sorted].
  destruct (Date.ltb (e_birthday y) (e_birthday x)) eqn:L; [|reflexivity].
  cbn [filter] in *. rewrite IH.
  destruct (on_date d x) eqn:Px; [|reflexivity].
  destruct (on_date d y) eqn:Py; [|reflexivity].
  exfalso. unfold on_date in Px, Py.
  destruct (Date.compare (e_birthday x) d) eqn:Cx; try discriminate.
  destruct (Date.compare (e_birthday y) d) eqn:Cy; try discriminate.
  rewrite (compare_eq_lt_l _ _ _ Cy Cx) in L. discriminate.
Qed.

Lemma sorted_filter (d : Date.t) (l : list entry) :
  filter (on_date d) (sorted l) = filter (on_date d) l.
Proof.
  induction l as [|x r IH]; [reflexivity|].
  cbn [sorted fold_right]. fold (sorted r).
  rewrite insert_sorted_filter. cbn [filter]. rewrite IH. reflexivity.
Qed.

Lemma get_upcoming_birthdays_raw (today limit : Date.t) (book : AddressBook.t)
  (res : list entry) :
  Date.add_days today 6 = Ok limit ->
  AddressBook.get_upcoming_birthdays today book = Ok res ->
  res = sorted (entries_in_order today limit (AddressBook.values book)).
Proof.
  unfold AddressBook.get_upcoming_birthdays. intros HL H. rewrite HL in H.
  cbn in H. apply bind_ok in H. destruct H as (raw & L & H).
  injection H as <-. rewrite (loop_entries _ _ _ _ L). reflexivity.
Qed.

(** X13: the result of [get_upcoming_birthdays] holds the entries of the
    visited records, each once, and the sort is stable: the entries with one
    and the same greeting date stand in the order in which the book holds
    their records. *)
Theorem X13_stable_order (today limit : Date.t) (book : AddressBook.t)
  (res : list entry) :
  Date.add_days today 6 = Ok limit ->
  AddressBook.get_upcoming_birthdays today book = Ok res ->
  Permutation (entries_in_order today limit (AddressBook.values book)) res /\
  forall d,
    filter (on_date d) res
    = filter (on_date d) (entries_in_order today limit (AddressBook.values book)).
Proof.
  intros HL H. rewrite (get_upcoming_birthdays_raw today limit book res HL H).
  split; [apply sorted_perm | intros d; apply sorted_filter].
Qed.

Lemma X13_stable_order_witness :
  filter (on_date (Date.mk 2024 6 17))
    [mk_entry (str "Alice") (Date.mk 2024 6 10);
     mk_entry (str "Bob") (Date.mk 2024 6 17)]
  = filter (on_date (Date.mk 2024 6 17))
      (entries_in_order (Date.mk 2024 6 9) (Date.mk 2024 6 15)
         (AddressBook.values sample_book)).
Proof.
  refine (proj2 (X13_stable_order (Date.mk 2024 6 9) (Date.mk 2024 6 15)
                   sample_book
                   [mk_entry (str "Alice") (Date.mk 2024 6 10);
                    mk_entry (str "Bob") (Date.mk 2024 6 17)] _ _)
            (Date.mk 2024 6 17)).
  - reflexivity.
  - vm_compute. reflexivity.
Defined.

Lemma entries_in_order_names (today limit : Date.t) (recs : list Record.t) :
  exists keep : Record.t -> bool,
    map e_name (entries_in_order today limit recs)
    = map Record.name (filter keep recs) /\
    forall rec, keep rec = true -> has_birthday rec = true.
Proof.
  exists (fun rec => match AddressBook.visit today limit rec with
                     | Ok (Some _) => true
                     | _ => false
                     end).
  split.
  - induction recs as [|rec rest IH]; [reflexivity|].
    cbn [entries_in_order flat_map filter]. fold (entries_in_order today limit rest).
    destruct (AddressBook.visit today limit rec) as [[e|]|x] eqn:V;
      cbn [app map]; try exact IH.
    rewrite IH. f_equal. apply visit_some in V.
    destruct V as (? & ? & ? & ? & _ & _ & _ & _ & _ & _ & ->). reflexivity.
  - intros rec. unfold AddressBook.visit, has_birthday.
    destruct (Record.birthday rec); [reflexivity | discriminate].
Qed.

Lemma filter_length_le {A} (f g : A -> bool) (l : list A) :
  (forall x, f x = true -> g x = true) ->
  (List.length (filter f l) <= List.length (filter g l))%nat.
Proof.
  intros H. induction l as [|x r IH]; cbn; [lia|].
  destruct (f x) eqn:F.
  - rewrite (H x F). cbn. lia.
  - destruct (g x); cbn; lia.
Qed.

Lemma kept_names_NoDup (keep : Record.t -> bool) (recs : list Record.t)
  (ND : NoDup (map Record.name recs)) :
  NoDup (map Record.name (filter keep recs)).
Proof.
  induction recs as [|rec rest IH]; cbn in *; [exact ND|].
  apply NoDup_cons_iff in ND. destruct ND as [Fresh ND].
  destruct (keep rec); cbn; [|exact (IH ND)].
  apply NoDup_cons_iff. split; [|exact (IH ND)].
  intros Hin. apply Fresh. apply in_map_iff in Hin.
  destruct Hin as (other & E & Hother). apply filter_In in Hother.
  rewrite <- E. apply in_map. apply Hother.
Qed.

Lemma book_wf_names_NoDup (book : AddressBook.t) :
  book_wf book -> NoDup (map Record.name (AddressBook.values book)).
Proof.
  intros [ND HK]. unfold AddressBook.values. rewrite map_map.
  replace (map (fun x => Record.name (snd x)) book) with (map fst book);
    [exact ND|].
  apply map_ext_in. intros [k r] Hin. cbn. symmetry. apply HK. exact Hin.
Qed.

(** X14: whenever [get_upcoming_birthdays] returns, it lists no more
    entries than the book has records with a birthday, and on a book that
    satisfies the dictionary invariant no name is listed twice. *)
Theorem X14_one_entry_per_record (today : Date.t) (book : AddressBook.t)
  (res : list entry) :
  AddressBook.get_upcoming_birthdays today book = Ok res ->
  (List.length res
   <= List.length (filter has_birthday (AddressBook.values book)))%nat /\
  (book_wf book -> NoDup (map e_name res)).
Proof.
  intros H.
  assert (HL : exists limit, Date.add_days today 6 = Ok limit).
  { unfold AddressBook.get_upcoming_birthdays in H. apply bind_ok in H.
    destruct H as (limit & HL & _). eauto. }
  destruct HL as (limit & HL).
  rewrite (get_upcoming_birthdays_raw today limit book res HL H).
  set (raw := entries_in_order today limit (AddressBook.values book)).
  pose proof (sorted_perm raw) as P.
  destruct (entries_in_order_names today limit (AddressBook.values book))
    as (keep & En & Hk). fold raw in En.
  split.
  - rewrite <- (Permutation_length P).
    rewrite <- (length_map e_name raw), En, length_map.
    apply filter_length_le. exact Hk.
  - intros Wf.
    apply (Permutation_NoDup (Permutation_map e_name P)).
    rewrite En. apply kept_names_NoDup, book_wf_names_NoDup. exact Wf.
Qed.

Lemma X14_one_entry_per_record_witness :
  NoDup (map e_name [mk_entry (str "Alice") (Date.mk 2024 6 10);
                     mk_entry (str "Bob") (Date.mk 2024 6 17)]).
Proof.
  refine (proj2 (X14_one_entry_per_record (Date.mk 2024 6 9) sample_book
                   [mk_entry (str "Alice") (Date.mk 2024 6 10);
                    mk_entry (str "Bob") (Date.mk 2024 6 17)] _) _).
  - vm_compute. reflexivity.
  - exact sample_book_wf.
Defined.

(* ================================================================= *)
(** * Command handlers *)

Lemma dict_get_in (k : pystr) (r : Record.t) (d : AddressBook.t) :
  AddressBook.dict_get k d = Some r -> In (k, r) d.
Proof.
  induction d as [|[k' r'] rest IH]; cbn; [discriminate|].
  destruct (pystr_eq_dec k' k) as [E|E].
  - intros H. injection H as <-. subst k'. left; reflexivity.
  - intros H. right. exact (IH H).
Qed.

Lemma dict_set_same (k : pystr) (r : Record.t) (d : AddressBook.t) :
  AddressBook.dict_get k d = Some r -> AddressBook.dict_set k r d = d.
Proof.
  induction d as [|[k' r'] rest IH]; cbn; [discriminate|].
  destruct (pystr_eq_dec k' k) as [E|E].
  - intros H. injection H as <-. reflexivity.
  - intros H. rewrite (IH H). reflexivity.
Qed.

Lemma dict_set_wf (k : pystr) (r : Record.t) (d : AddressBook.t) :
  book_wf d -> Record.name r = k -> book_wf (AddressBook.dict_set k r d).
Proof.
  intros [ND HK] E. split; [apply dict_set_NoDup; exact ND|].
  intros k0 r0 H. apply dict_set_in in H.
  destruct H as [[-> ->] | H]; [exact E | auto].
Qed.

Lemma add_contact_book (name phone : pystr) (rest : list pystr)
  (book : AddressBook.t) :
  snd (Commands.add_contact (name :: phone :: rest) book)
  = AddressBook.dict_set name
      (snd (Record.add_phone phone (found_or_new name book)))
      (match AddressBook.find name book with
       | Some _ => book
       | None => AddressBook.add_record (Record.init name) book
       end).
Proof.
  unfold Commands.add_contact, Commands.decorated, Commands.add_contact_body,
    found_or_new.
  destruct (AddressBook.find name book);
    destruct (Record.add_phone phone _); reflexivity.
Qed.

Lemma find_after_write (name : pystr) (r : Record.t) (book1 : AddressBook.t) :
  AddressBook.find name (AddressBook.dict_set name r book1) = Some r.
Proof. apply dict_get_set_same. Qed.

(** X15: [add_contact] with a valid phone answers "Contact added." for a
    new name and "Contact updated." for a stored one, and afterwards the
    book holds under that name the record it had (a new, empty one for a new
    name) with the phone appended at the end; every other contact is as
    before.  Arguments after the second are ignored. *)
Theorem X15_add_contact_stores (name phone : pystr) (rest : list pystr)
  (book : AddressBook.t) :
  Phone.validate phone = true ->
  let prev := found_or_new name book in
  let after := Commands.add_contact (name :: phone :: rest) book in
  fst after
  = str (match AddressBook.find name book with
         | None => "Contact added."
         | Some _ => "Contact updated."
         end) /\
  AddressBook.find name (snd after)
  = Some (Record.mk (Record.name prev)
                    (Record.phones prev ++ [Phone.mk phone])
                    (Record.birthday prev)) /\
  (forall k, k <> name ->
     AddressBook.find k (snd after) = AddressBook.find k book).
Proof.
  intros V prev after. subst after. split; [|split].
  - unfold Commands.add_contact, Commands.decorated, Commands.add_contact_body.
    unfold Record.add_phone, Phone.init. rewrite V. cbn.
    destruct (AddressBook.find name book); reflexivity.
  - rewrite add_contact_book, find_after_write. fold prev.
    unfold Record.add_phone, Phone.init. rewrite V. reflexivity.
  - intros k Hk. rewrite add_contact_book. unfold AddressBook.find.
    rewrite dict_get_set_other by exact Hk.
    destruct (AddressBook.dict_get name book); [reflexivity|].
    unfold AddressBook.add_record. cbn [Record.init Record.name].
    apply dict_get_set_other. exact Hk.
Qed.

Lemma X15_add_contact_stores_witness :
  AddressBook.find (str "Ann")
    (snd (Commands.add_contact [str "Ann"; str "0501234567"] sample_book))
  = Some (Record.mk (str "Ann") [Phone.mk (str "0501234567")] None).
Proof.
  exact (proj1 (proj2 (X15_add_contact_stores (str "Ann") (str "0501234567") []
                         sample_book eq_refl))).
Defined.

(** X16: [add_contact] with an invalid phone answers "Invalid value: Phone
    number must contain exactly 10 digits."; a stored contact is untouched,
    but for a new name the book afterwards holds an empty contact under that
    name: the record is added before the phone is checked.  Every other
    contact is as before. *)
Theorem X16_add_contact_invalid (name phone : pystr) (rest : list pystr)
  (book : AddressBook.t) :
  Phone.validate phone = false ->
  let after := Commands.add_contact (name :: phone :: rest) book in
  fst after
  = str "Invalid value: Phone number must contain exactly 10 digits." /\
  (AddressBook.find name book = None ->
   AddressBook.find name (snd after) = Some (Record.init name)) /\
  (forall r, AddressBook.find name book = Some r -> snd after = book) /\
  (forall k, k <> name ->
     AddressBook.find k (snd after) = AddressBook.find k book).
Proof.
  intros V after. subst after.
  assert (A : forall r, Record.add_phone phone r
              = (Raise (ValueError "Phone number must contain exactly 10 digits."), r)).
  { intros r. unfold Record.add_phone, Phone.init. rewrite V. reflexivity. }
  split; [|split; [|split]].
  - unfold Commands.add_contact, Commands.decorated, Commands.add_contact_body.
    destruct (AddressBook.find name book); rewrite A; reflexivity.
  - intros H. rewrite add_contact_book, find_after_write.
    unfold found_or_new. rewrite H, A. reflexivity.
  - intros r H. rewrite add_contact_book. unfold found_or_new.
    rewrite H, A. apply dict_set_same. exact H.
  - intros k Hk. rewrite add_contact_book. unfold AddressBook.find.
    rewrite dict_get_set_other by exact Hk.
    destruct (AddressBook.dict_get name book); [reflexivity|].
    unfold AddressBook.add_record. cbn [Record.init Record.name].
    apply dict_get_set_other. exact Hk.
Qed.

Lemma X16_add_contact_invalid_witness :
  AddressBook.find (str "Ann")
    (snd (Commands.add_contact [str "Ann"; str "12345"] sample_book))
  = Some (Record.init (str "Ann")).
Proof.
  exact (proj1 (proj2 (X16_add_contact_invalid (str "Ann") (str "12345") []
                         sample_book eq_refl)) eq_refl).
Defined.

(** X17: a decorated handler called with fewer arguments than it reads
    answers "Not enough arguments provided for the command." and leaves the
    book as it is: [add_contact] and [add_birthday] with fewer than two,
    [change_contact] with fewer than three, [show_phone] and
    [show_birthday] with none. *)
Theorem X17_missing_arguments (args : list pystr) (book : AddressBook.t) :
  let answer := (str "Not enough arguments provided for the command.", book) in
  ((List.length args < 2)%nat ->
   Commands.add_contact args book = answer /\
   Commands.add_birthday args book = answer) /\
  ((List.length args < 3)%nat -> Commands.change_contact args book = answer) /\
  ((List.length args < 1)%nat ->
   Commands.show_phone args book = answer /\
   Commands.show_birthday args book = answer).
Proof.
  cbv zeta. split; [|split]; intros L.
  - destruct args as [|a [|b r]]; cbn in L; try lia; split; reflexivity.
  - destruct args as [|a [|b [|c r]]]; cbn in L; try lia; reflexivity.
  - destruct args as [|a r]; cbn in L; try lia; split; reflexivity.
Qed.

Lemma X17_missing_arguments_witness :
  Commands.change_contact [str "Alice"; str "0501234567"] sample_book
  = (str "Not enough arguments provided for the command.", sample_book).
Proof.
  apply (proj1 (proj2 (X17_missing_arguments [str "Alice"; str "0501234567"]
                         sample_book))).
  cbn. lia.
Defined.

(** X18: for a name the book does not hold, [change_contact], [show_phone]
    and [show_birthday] answer "Contact not found." and leave the book as it
    is. *)
Theorem X18_unknown_contact (name : pystr) (book : AddressBook.t) :
  AddressBook.find name book = None ->
  let answer := (str "Contact not found.", book) in
  (forall old new rest,
     Commands.change_contact (name :: old :: new :: rest) book = answer) /\
  (forall rest, Commands.show_phone (name :: rest) book = answer) /\
  (forall rest, Commands.show_birthday (name :: rest) book = answer).
Proof.
  intros H. cbv zeta.
  unfold Commands.change_contact, Commands.show_phone, Commands.show_birthday,
    Commands.decorated, Commands.change_contact_body,
    Commands.show_phone_body, Commands.show_birthday_body.
  rewrite H. repeat split.
Qed.

Lemma X18_unknown_contact_witness :
  Commands.show_phone [str "Zed"] sample_book
  = (str "Contact not found.", sample_book).
Proof.
  apply (proj1 (proj2 (X18_unknown_contact (str "Zed") sample_book eq_refl))).
Defined.

Lemma add_contact_valid_find (name phone : pystr) (rest : list pystr)
  (book : AddressBook.t) :
  Phone.validate phone = true ->
  AddressBook.find name
    (snd (Commands.add_contact (name :: phone :: rest) book))
  = Some (Record.mk (Record.name (found_or_new name book))
                    (Record.phones (found_or_new name book) ++ [Phone.mk phone])
                    (Record.birthday (found_or_new name book))).
Proof.
  intros V. rewrite add_contact_book, find_after_write.
  unfold Record.add_phone, Phone.init. rewrite V. reflexivity.
Qed.

(** X19: after [add_contact] with a valid phone, [show_phone] for that name
    answers the contact's phone values in the order they were added, joined
    by ", ", the new phone last; for a new contact that is the phone
    itself. *)
Theorem X19_show_phone_after_add (name phone : pystr) (rest rest' : list pystr)
  (book : AddressBook.t) :
  Phone.validate phone = true ->
  fst (Commands.show_phone (name :: rest')
         (snd (Commands.add_contact (name :: phone :: rest) book)))
  = join (str ", ")
      (map Phone.value (Record.phones (found_or_new name book)) ++ [phone]).
Proof.
  intros V.
  unfold Commands.show_phone, Commands.decorated, Commands.show_phone_body.
  rewrite (add_contact_valid_find name phone rest book V).
  cbn [Record.phones].
  destruct (Record.phones (found_or_new name book)) as [|p ps]; cbn [app].
  - reflexivity.
  - cbn [fst Commands.input_error map app]. rewrite map_app. reflexivity.
Qed.

Lemma X19_show_phone_after_add_witness :
  fst (Commands.show_phone [str "Ann"]
         (snd (Commands.add_contact [str "Ann"; str "0501234567"] sample_book)))
  = str "0501234567".
Proof.
  exact (X19_show_phone_after_add (str "Ann") (str "0501234567") [] []
           sample_book eq_refl).
Defined.

Lemma add_birthday_book (name bday : pystr) (rest : list pystr)
  (book : AddressBook.t) :
  snd (Commands.add_birthday (name :: bday :: rest) book)
  = AddressBook.dict_set name
      (snd (Record.add_birthday bday (found_or_new name book)))
      (match AddressBook.find name book with
       | Some _ => book
       | None => AddressBook.add_record (Record.init name) book
       end).
Proof.
  unfold Commands.add_birthday, Commands.decorated, Commands.add_birthday_body,
    found_or_new.
  destruct (AddressBook.find name book);
    destruct (Record.add_birthday bday _); reflexivity.
Qed.

Lemma add_birthday_lenient (s : pystr) (r : Record.t) :
  lenient_date s ->
  Record.add_birthday s r
  = (Ok tt, Record.mk (Record.name r) (Record.phones r) (Some (Birthday.mk s))).
Proof.
  intros H. apply strptime_ok_iff in H.
  unfold Record.add_birthday, Birthday.init.
  destruct (Strptime.strptime s); [reflexivity | discriminate].
Qed.

Lemma add_birthday_not_lenient (s : pystr) (r : Record.t) :
  ~ lenient_date s ->
  Record.add_birthday s r
  = (Raise (ValueError "Invalid date format. Use DD.MM.YYYY"), r).
Proof.
  intros H. pose proof (strptime_ok_iff s) as I.
  unfold Record.add_birthday, Birthday.init.
  destruct (Strptime.strptime s); [|reflexivity].
  exfalso. apply H, I. reflexivity.
Qed.

(** X20: the command [add_birthday] with a string that [strptime] reads as
    a date answers "Birthday added.", creates the contact when the name is
    new, keeps the contact's phones, and [show_birthday] then answers the
    string exactly as it was typed; with any other string it answers
    "Invalid value: Invalid date format. Use DD.MM.YYYY". *)
Theorem X20_birthday_round_trip (name s : pystr) (rest rest' : list pystr)
  (book : AddressBook.t) :
  let after := Commands.add_birthday (name :: s :: rest) book in
  (lenient_date s ->
   fst after = str "Birthday added." /\
   AddressBook.find name (snd after)
   = Some (Record.mk (Record.name (found_or_new name book))
                     (Record.phones (found_or_new name book))
                     (Some (Birthday.mk s))) /\
   fst (Commands.show_birthday (name :: rest') (snd after)) = s) /\
  (~ lenient_date s ->
   fst after = str "Invalid value: Invalid date format. Use DD.MM.YYYY").
Proof.
  cbv zeta. split; intros H.
  - assert (F : AddressBook.find name
                  (snd (Commands.add_birthday (name :: s :: rest) book))
                = Some (Record.mk (Record.name (found_or_new name book))
                          (Record.phones (found_or_new name book))
                          (Some (Birthday.mk s)))).
    { rewrite add_birthday_book, find_after_write, add_birthday_lenient by exact H.
      reflexivity. }
    split; [|split; [exact F|]].
    + unfold Commands.add_birthday, Commands.decorated,
        Commands.add_birthday_body.
      destruct (AddressBook.find name book);
        rewrite add_birthday_lenient by exact H; reflexivity.
    + unfold Commands.show_birthday, Commands.decorated,
        Commands.show_birthday_body.
      rewrite F. reflexivity.
  - unfold Commands.add_birthday, Commands.decorated,
      Commands.add_birthday_body.
    destruct (AddressBook.find name book);
      rewrite add_birthday_not_lenient by exact H; reflexivity.
Qed.

Lemma X20_birthday_round_trip_witness :
  fst (Commands.show_birthday [str "Ann"]
         (snd (Commands.add_birthday [str "Ann"; str "1.1.2000"] sample_book)))
  = str "1.1.2000".
Proof.
  refine (proj2 (proj2 (proj1 (X20_birthday_round_trip (str "Ann")
                                 (str "1.1.2000") [] [] sample_book) _))).
  exists (str "1"), (str "1"), (str "2000"). vm_compute. repeat split.
Defined.

Lemma edit_phone_present (r : Record.t) (old new : pystr)
  (l1 l2 : list Phone.t) (p : Phone.t) :
  Record.phones r = l1 ++ p :: l2 -> Phone.value p = old ->
  (forall q, In q l1 -> Phone.value q <> old) ->
  Record.edit_phone old new r
  = if Phone.validate new
    then (Ok tt, Record.mk (Record.name r) (l1 ++ Phone.mk new :: l2)
                           (Record.birthday r))
    else (Raise (ValueError "Phone number must contain exactly 10 digits."), r).
Proof.
  intros E Hv Hn. unfold Record.edit_phone.
  rewrite (find_phone_found r old l1 l2 p E Hv Hn). rewrite E.
  rewrite list_index_first
    by (apply not_in_by_value; intros q Hq; rewrite Hv; auto).
  unfold Phone.init. destruct (Phone.validate new); cbn; [|reflexivity].
  unfold Record.set_phones. rewrite list_set_middle. reflexivity.
Qed.

(** X21: [change_contact] for a stored contact: when the old number is
    among its phones and the new one is valid, it answers "Phone updated."
    and the book holds the contact with the first such phone replaced in
    place; when the new number is invalid it answers "Invalid value: Phone
    number must contain exactly 10 digits."; when the old number is not
    among the phones it answers "Invalid value: Old phone not found.",
    whatever the new number is.  In the last two cases the book is as
    before. *)
Theorem X21_change_contact (name old new : pystr) (rest : list pystr)
  (book : AddressBook.t) (r : Record.t) :
  AddressBook.find name book = Some r ->
  (forall l1 l2 p,
     Record.phones r = l1 ++ p :: l2 -> Phone.value p = old ->
     (forall q, In q l1 -> Phone.value q <> old) ->
     (Phone.validate new = true ->
      Commands.change_contact (name :: old :: new :: rest) book
      = (str "Phone updated.",
         AddressBook.dict_set name
           (Record.mk (Record.name r) (l1 ++ Phone.mk new :: l2)
                      (Record.birthday r)) book)) /\
     (Phone.validate new = false ->
      Commands.change_contact (name :: old :: new :: rest) book
      = (str "Invalid value: Phone number must contain exactly 10 digits.",
         book))) /\
  ((forall p, In p (Record.phones r) -> Phone.value p <> old) ->
   Commands.change_contact (name :: old :: new :: rest) book
   = (str "Invalid value: Old phone not found.", book)).
Proof.
  intros F.
  unfold Commands.change_contact, Commands.decorated,
    Commands.change_contact_body. rewrite F. split.
  - intros l1 l2 p E Hv Hn.
    rewrite (edit_phone_present r old new l1 l2 p E Hv Hn).
    split; intros V; rewrite V; [reflexivity|].
    rewrite (dict_set_same name r book F). reflexivity.
  - intros H. unfold Record.edit_phone.
    rewrite (find_phone_none r old H).
    rewrite (dict_set_same name r book F). reflexivity.
Qed.

Lemma X21_change_contact_witness :
  let book := snd (Commands.add_contact [str "Ann"; str "0501234567"] []) in
  Commands.change_contact [str "Ann"; str "0501234567"; str "0670000000"] book
  = (str "Phone updated.",
     [(str "Ann", Record.mk (str "Ann") [Phone.mk (str "0670000000")] None)]).
Proof.
  refine (proj1 (proj1 (X21_change_contact (str "Ann") (str "0501234567")
                          (str "0670000000") []
                          (snd (Commands.add_contact
                                  [str "Ann"; str "0501234567"] []))
                          (Record.mk (str "Ann") [Phone.mk (str "0501234567")] None)
                          _)
                  [] [] (Phone.mk (str "0501234567")) _ _ _) _).
  - reflexivity.
  - reflexivity.
  - reflexivity.
  - intros q [].
  - reflexivity.
Defined.

Lemma add_phone_name (n : pystr) (r : Record.t) :
  Record.name (snd (Record.add_phone n r)) = Record.name r.
Proof. unfold Record.add_phone. destruct (Phone.init n); reflexivity. Qed.

Lemma edit_phone_name (o n : pystr) (r : Record.t) :
  Record.name (snd (Record.edit_phone o n r)) = Record.name r.
Proof.
  unfold Record.edit_phone. destruct (Record.find_phone r o); [|reflexivity].
  destruct (list_index _ _ _); [|reflexivity].
  destruct (Phone.init n); reflexivity.
Qed.

Lemma add_birthday_name (s : pystr) (r : Record.t) :
  Record.name (snd (Record.add_birthday s r)) = Record.name r.
Proof. unfold Record.add_birthday. destruct (Birthday.init s); reflexivity. Qed.

Lemma found_or_new_name (name : pystr) (book : AddressBook.t) :
  book_wf book -> Record.name (found_or_new name book) = name.
Proof.
  intros [_ HK]. unfold found_or_new, AddressBook.find.
  destruct (AddressBook.dict_get name book) as [r|] eqn:E; [|reflexivity].
  apply HK. apply dict_get_in. exact E.
Qed.

Lemma created_book_wf (name : pystr) (book : AddressBook.t) :
  book_wf book ->
  book_wf (match AddressBook.find name book with
           | Some _ => book
           | None => AddressBook.add_record (Record.init name) book
           end).
Proof.
  intros W. destruct (AddressBook.find name book); [exact W|].
  apply add_record_wf. exact W.
Qed.

(** X22: the handlers keep the dictionary invariant of the book (distinct
    keys, every record under its own name), whatever the arguments and
    whether they succeed or answer an error; [show_phone] and
    [show_birthday] do not change the book at all. *)
Theorem X22_handlers_keep_invariant (args : list pystr) (book : AddressBook.t) :
  (book_wf book ->
   book_wf (snd (Commands.add_contact args book)) /\
   book_wf (snd (Commands.change_contact args book)) /\
   book_wf (snd (Commands.add_birthday args book))) /\
  snd (Commands.show_phone args book) = book /\
  snd (Commands.show_birthday args book) = book.
Proof.
  split; [|split].
  - intros W. split; [|split].
    + destruct args as [|name [|phone rest]]; try exact W.
      rewrite add_contact_book. apply dict_set_wf.
      * apply created_book_wf. exact W.
      * rewrite add_phone_name. apply found_or_new_name. exact W.
    + destruct args as [|name [|old [|new rest]]]; try exact W.
      unfold Commands.change_contact, Commands.decorated,
        Commands.change_contact_body.
      destruct (AddressBook.find name book) as [r|] eqn:F; [|exact W].
      pose proof (edit_phone_name old new r) as N.
      destruct (Record.edit_phone old new r) as [res r']. cbn [snd] in *.
      apply dict_set_wf; [exact W|]. rewrite N.
      destruct W as [_ HK]. apply HK, dict_get_in. exact F.
    + destruct args as [|name [|bday rest]]; try exact W.
      rewrite add_birthday_book. apply dict_set_wf.
      * apply created_book_wf. exact W.
      * rewrite add_birthday_name. apply found_or_new_name. exact W.
  - unfold Commands.show_phone, Commands.decorated, Commands.show_phone_body.
    destruct args as [|name rest]; [reflexivity|].
    destruct (AddressBook.find name book) as [r|]; [|reflexivity].
    destruct (Record.phones r); reflexivity.
  - unfold Commands.show_birthday, Commands.decorated,
      Commands.show_birthday_body.
    destruct args as [|name rest]; [reflexivity|].
    destruct (AddressBook.find name book) as [r|]; [|reflexivity].
    destruct (Record.birthday r); reflexivity.
Qed.

Lemma X22_handlers_keep_invariant_witness :
  book_wf (snd (Commands.add_contact [str "Ann"; str "12345"] sample_book)).
Proof.
  exact (proj1 (proj1 (X22_handlers_keep_invariant [str "Ann"; str "12345"]
                         sample_book) sample_book_wf)).
Defined.

(* ================================================================= *)
(** * The birthdays command *)

Lemma digit_char (k : Z) :
  (0 <= k <= 9)%Z ->
  is_ascii_digit (Z.to_N (48 + k)) = true /\
  decimal_value (Z.to_N (48 + k)) = k.
Proof.
  intros H.
  assert (A : is_ascii_digit (Z.to_N (48 + k)) = true).
  { unfold is_ascii_digit. apply andb_true_iff. rewrite !N.leb_le. lia. }
  split; [exact A|]. rewrite (decimal_value_ascii _ A). lia.
Qed.

Lemma ascii_digit_not_dot (c : char) :
  is_ascii_digit c = true -> c <> Strptime.dot.
Proof.
  unfold is_ascii_digit, Strptime.dot. intros H E. subst c. discriminate.
Qed.

(** A string in the format DD.MM.YYYY that denotes a real date is read by
    [strptime] as that date. *)
Lemma strict_date_strptime (s : pystr) :
  strict_date s = true -> Strptime.strptime s = Ok (denoted_date s).
Proof.
  intros H. destruct (strict_date_lenient s H) as (ds & ms & ys & E & D & M & Y & V).
  unfold strict_date in H. apply andb_true_iff in H. destruct H as [F _].
  destruct s as [|d1 [|d2 [|p1 [|m1 [|m2 [|p2 [|y1 [|y2 [|y3 [|y4 [|]]]]]]]]]]];
    try discriminate.
  cbn [dd_mm_yyyy forallb] in F. rewrite !andb_true_iff in F.
  destruct F as [[(A1 & A2 & A3 & A4 & _) P1] P2].
  apply N.eqb_eq in P1, P2. subst p1 p2.
  change [d1; d2; Strptime.dot; m1; m2; Strptime.dot; y1; y2; y3; y4]
    with ([d1; d2] ++ Strptime.dot :: [m1; m2] ++ Strptime.dot :: [y1; y2; y3; y4])
    in E.
  apply split_at_first in E.
  - destruct E as [<- E]. apply split_at_first in E.
    + destruct E as [<- <-]. apply strptime_iff.
      exists [d1; d2], [m1; m2], [y1; y2; y3; y4].
      repeat (split; [assumption || reflexivity|]).
      apply make_valid in V. exact V.
    + intros [I | [I | []]];
        [exact (ascii_digit_not_dot _ A3 I) | exact (ascii_digit_not_dot _ A4 I)].
    + apply month_text_no_dot. exact M.
  - intros [I | [I | []]];
      [exact (ascii_digit_not_dot _ A1 I) | exact (ascii_digit_not_dot _ A2 I)].
  - apply day_text_no_dot. exact D.
Qed.

Lemma drop_zeros_head (d : Z) (r : list Z) :
  d <> 0%Z -> Commands.drop_zeros (d :: r) = d :: r.
Proof. intros H. destruct d; [contradiction | reflexivity | reflexivity]. Qed.

(** For years of four digits, [strftime] writes the format DD.MM.YYYY, and
    what it writes denotes the date. *)
Lemma strftime_strict (d : Date.t) :
  Date.valid d = true -> (1000 <= Date.year d)%Z ->
  strict_date (Commands.strftime d) = true /\
  denoted_date (Commands.strftime d) = d.
Proof.
  intros V Hy. pose proof V as V'. apply valid_iff in V'.
  destruct V' as (Hyr & Hm & Hd).
  pose proof (days_in_month_bounds (Date.year d) (Date.month d)) as B.
  destruct d as [y m dd]. cbn [Date.year Date.month Date.day] in *.
  unfold Commands.strftime, Commands.year_digits, Commands.two_digits.
  cbn [Date.year Date.month Date.day].
  rewrite drop_zeros_head by (Z.div_mod_to_equations; lia).
  cbn [map app].
  destruct (digit_char (dd / 10)) as [a1 v1]; [Z.div_mod_to_equations; lia|].
  destruct (digit_char (dd mod 10)) as [a2 v2]; [Z.div_mod_to_equations; lia|].
  destruct (digit_char (m / 10)) as [a3 v3]; [Z.div_mod_to_equations; lia|].
  destruct (digit_char (m mod 10)) as [a4 v4]; [Z.div_mod_to_equations; lia|].
  destruct (digit_char (y / 1000)) as [a5 v5]; [Z.div_mod_to_equations; lia|].
  destruct (digit_char ((y / 100) mod 10)) as [a6 v6];
    [Z.div_mod_to_equations; lia|].
  destruct (digit_char ((y / 10) mod 10)) as [a7 v7];
    [Z.div_mod_to_equations; lia|].
  destruct (digit_char (y mod 10)) as [a8 v8]; [Z.div_mod_to_equations; lia|].
  assert (Den : denoted_date
                  [Z.to_N (48 + dd / 10); Z.to_N (48 + dd mod 10); Strptime.dot;
                   Z.to_N (48 + m / 10); Z.to_N (48 + m mod 10); Strptime.dot;
                   Z.to_N (48 + y / 1000); Z.to_N (48 + (y / 100) mod 10);
                   Z.to_N (48 + (y / 10) mod 10); Z.to_N (48 + y mod 10)]
                = Date.mk y m dd).
  { cbn [denoted_date]. unfold number. cbn [fold_left].
    rewrite v1, v2, v3, v4, v5, v6, v7, v8.
    f_equal; Z.div_mod_to_equations; lia. }
  split; [|exact Den].
  unfold strict_date. apply andb_true_iff. split.
  - cbn [dd_mm_yyyy forallb app].
    rewrite a1, a2, a3, a4, a5, a6, a7, a8. reflexivity.
  - change (Date.valid
              (denoted_date
                 [Z.to_N (48 + dd / 10); Z.to_N (48 + dd mod 10); Strptime.dot;
                  Z.to_N (48 + m / 10); Z.to_N (48 + m mod 10); Strptime.dot;
                  Z.to_N (48 + y / 1000); Z.to_N (48 + (y / 100) mod 10);
                  Z.to_N (48 + (y / 10) mod 10); Z.to_N (48 + y mod 10)])
            = true).
    rewrite Den. exact V.
Qed.

(** X23: [birthdays] answers "No birthdays in upcoming 7 days." for an
    empty result and otherwise one line per entry, joined by newlines, each
    being the greeting date, ": " and the name.  With today in a year of
    four digits, every date it prints is in the format DD.MM.YYYY and is
    read back by [strptime] (so by the [Birthday] constructor) as the
    greeting date. *)
Theorem X23_birthdays_lines (today : Date.t) (args : list pystr)
  (book : AddressBook.t) (res : list entry) :
  Date.valid today = true -> (1000 <= Date.year today)%Z ->
  AddressBook.get_upcoming_birthdays today book = Ok res ->
  Commands.birthdays today args book
  = Ok (match res with
        | [] => str "No birthdays in upcoming 7 days."
        | _ => join [10%N]
                 (map (fun e => Commands.strftime (e_birthday e)
                                ++ str ": " ++ e_name e) res)
        end) /\
  forall e, In e res ->
    strict_date (Commands.strftime (e_birthday e)) = true /\
    Strptime.strptime (Commands.strftime (e_birthday e)) = Ok (e_birthday e).
Proof.
  intros Vt Hy H. split.
  - unfold Commands.birthdays. rewrite H. cbn. destruct res; reflexivity.
  - intros e He.
    destruct (entry_origin today book res Vt H e He)
      as (rec & b & bd & _ & _ & _ & _ & W & Vg & Og & _).
    pose proof (weekend_shift_bounds (anchored today bd)) as B.
    assert (L : Date.leb today (e_birthday e) = true).
    { apply toordinal_le; auto. unfold within_days in W. lia. }
    apply leb_iff in L.
    destruct (strftime_strict (e_birthday e) Vg) as [S Dn]; [lia|].
    split; [exact S|]. rewrite (strict_date_strptime _ S), Dn. reflexivity.
Qed.

Lemma X23_birthdays_lines_witness :
  Commands.birthdays (Date.mk 2024 6 9) [] sample_book
  = Ok (str "10.06.2024: Alice" ++ [10%N] ++ str "17.06.2024: Bob").
Proof.
  refine (proj1 (X23_birthdays_lines (Date.mk 2024 6 9) [] sample_book
                   [mk_entry (str "Alice") (Date.mk 2024 6 10);
                    mk_entry (str "Bob") (Date.mk 2024 6 17)] _ _ _)).
  - reflexivity.
  - vm_compute. discriminate.
  - vm_compute. reflexivity.
Defined.

(* ================================================================= *)
(** * The anchoring of a birthday *)

(** X24: when the anchoring of lines 128-131 succeeds, the anchored date
    has the birthday's month and day, lies in the current year or in the
    next year (the latter only when this year's date is before today) and
    is never before today: the test [today <= bday] of line 133 always
    holds. *)
Theorem X24_anchor_next_occurrence (today bd a : Date.t) :
  AddressBook.anchor today bd = Ok a ->
  Date.month a = Date.month bd /\ Date.day a = Date.day bd /\
  Date.leb today a = true /\
  (Date.year a = Date.year today \/
   (Date.year a = (Date.year today + 1)%Z /\
    Date.ltb (Date.mk (Date.year today) (Date.month bd) (Date.day bd)) today
    = true)).
Proof.
  intros H. apply anchor_spec in H. destruct H as [-> _].
  unfold anchored.
  destruct (Date.ltb (Date.mk (Date.year today) (Date.month bd) (Date.day bd))
              today) eqn:L; cbn [Date.year Date.month Date.day].
  - repeat split; [apply leb_iff; cbn; lia | right; auto].
  - repeat split; [rewrite leb_negb_ltb, L; reflexivity | left; reflexivity].
Qed.

Lemma X24_anchor_next_occurrence_witness :
  Date.leb (Date.mk 2024 6 9) (Date.mk 2025 1 5) = true.
Proof.
  exact (proj1 (proj2 (proj2 (X24_anchor_next_occurrence (Date.mk 2024 6 9)
                                (Date.mk 1990 1 5) (Date.mk 2025 1 5) eq_refl)))).
Defined.

Lemma leap_years_apart (y : Z) :
  Date.is_leap y = true -> Date.is_leap (y + 1) = true -> False.
Proof.
  unfold Date.is_leap. rewrite !andb_true_iff, !Z.eqb_eq.
  intros [H1 _] [H2 _]. Z.div_mod_to_equations. lia.
Qed.

Lemma leap_day_needs_leap_year (y : Z) (a : Date.t) :
  Date.make y 2 29 = Ok a -> Date.is_leap y = true.
Proof.
  intros H. apply make_spec in H. destruct H as [-> V].
  apply valid_iff in V. cbn in V. destruct V as (_ & _ & _ & V).
  unfold Date.days_in_month in V. cbn in V.
  destruct (Date.is_leap y); [reflexivity | lia].
Qed.

(** X25: with a contact whose birthday is a 29th of February in the book,
    [get_upcoming_birthdays] returns only when today is in a leap year and
    not after its 29th of February; on every other day it raises. *)
Theorem X25_leap_day_window (today : Date.t) (book : AddressBook.t)
  (rec : Record.t) (b : Birthday.t) (bd : Date.t) :
  In rec (AddressBook.values book) ->
  Record.birthday rec = Some b ->
  Strptime.strptime (Birthday.value b) = Ok bd ->
  Date.month bd = 2%Z -> Date.day bd = 29%Z ->
  is_ok (AddressBook.get_upcoming_birthdays today book) = true ->
  Date.is_leap (Date.year today) = true /\
  Date.leb today (Date.mk (Date.year today) 2 29) = true.
Proof.
  intros Hin Hb P Hm Hd Hok.
  destruct (AddressBook.get_upcoming_birthdays today book) as [res|x] eqn:G;
    [|discriminate].
  apply get_upcoming_birthdays_spec in G.
  destruct G as (limit & _ & Hv & _). specialize (Hv rec Hin).
  unfold AddressBook.visit in Hv. rewrite Hb, P in Hv.
  unfold AddressBook.anchor, Date.replace_year in Hv. rewrite Hm, Hd in Hv.
  destruct (Date.make (Date.year today) 2 29) as [a0|x] eqn:M0;
    [|discriminate].
  pose proof (leap_day_needs_leap_year _ _ M0) as L0.
  apply make_spec in M0. destruct M0 as [-> _].
  split; [exact L0|]. cbn [bind] in Hv.
  rewrite leb_negb_ltb.
  destruct (Date.ltb (Date.mk (Date.year today) 2 29) today); [|reflexivity].
  exfalso.
  destruct (Date.make (Date.year today + 1) 2 29) as [a1|x] eqn:M1;
    [|discriminate].
  exact (leap_years_apart _ L0 (leap_day_needs_leap_year _ _ M1)).
Qed.

Lemma X25_leap_day_window_witness :
  Date.is_leap 2024 = true /\
  Date.leb (Date.mk 2024 2 25) (Date.mk 2024 2 29) = true.
Proof.
  refine (X25_leap_day_window (Date.mk 2024 2 25)
            (AddressBook.add_record leap sample_book) leap
            (Birthday.mk (str "29.02.2000")) (Date.mk 2000 2 29) _ _ _ _ _ _).
  - right. right. left. reflexivity.
  - reflexivity.
  - vm_compute. reflexivity.
  - reflexivity.
  - reflexivity.
  - vm_compute. reflexivity.
Defined.
